(** * yabgp: the MP_REACH_NLRI path attribute codec

    A shallow embedding of [yabgp/message/attribute/mpreachnlri.py]
    (class [MpReachNLRI], methods [parse] and [construct]) and the
    properties of it that the specification states.

    The module is Python 2 code: [construct] concatenates the results of
    [struct.pack] with the literals [''] and ['\x00'], so a [str] is a
    byte string, and [repr] of a [str] is its quoted, escaped rendering.
    Exceptions are made explicit with a small error monad. *)

From Stdlib Require Import NArith ZArith Lia.
From Stdlib Require Import Strings.Byte DecimalString.
From stdpp Require Import gmap strings list fin_maps.

Local Open Scope N_scope.

(** ** Python values *)

(** A Python 2 [str]: a sequence of bytes. *)
Abbreviation str := (list byte).

#[global] Instance byte_eq_decision : EqDecision byte := Byte.byte_eq_dec.

(** A string literal of the source, as bytes. *)
Definition lit (s : string) : str := String.list_byte_of_string s.

(** The Python values that flow through the codec: integers, byte strings,
    tuples and lists (what the NLRI sub-codecs produce and consume is built
    from these). *)
Inductive pyval : Type :=
| PNone
| PInt (n : Z)
| PStr (s : str)
| PTuple (xs : list pyval)
| PList (xs : list pyval).

(** A Python [dict] with string keys. *)
Abbreviation pydict := (gmap string pyval).

(** Exceptions.  [PyExc cls msg] is an exception of a built-in or library
    class [cls] whose [str()] is [msg]; the other two are the classes of
    [yabgp.common.exception] that this module raises. *)
Inductive exn : Type :=
| PyExc (cls : string) (msg : str)
| UpdateMessageError (sub_error : N) (data : str)
| ConstructAttributeFailed (reason : str) (data : pydict).

(** The errors the specification calls typed: [AttributeLengthError] is
    [UpdateMessageError] with the attribute-length sub-error, and
    [ConstructError] is [ConstructAttributeFailed]. *)
Definition typed_error (e : exn) : bool :=
  match e with
  | PyExc _ _ => false
  | UpdateMessageError _ _ => true
  | ConstructAttributeFailed _ _ => true
  end.

(** ** The error monad *)

Inductive result (A : Type) : Type :=
| Return (a : A)
| Raise (e : exn).
Arguments Return {A} a.
Arguments Raise {A} e.

#[global] Instance result_ret : MRet result := fun A a => Return a.

#[global] Instance result_bind : MBind result := fun A B k m =>
  match m with
  | Return a => k a
  | Raise e => Raise e
  end.

(** [try: m  except Exception as e: h e] *)
Definition try_except {A} (m : result A) (h : exn -> result A) : result A :=
  match m with
  | Return a => Return a
  | Raise e => h e
  end.

(** ** Constants of the collaborating modules *)

(** Modelled from the spec: [afn.py], [safn.py], [constants.py] and the
    [AttributeID] and [AttributeFlag] tables are not part of the source
    slice.  The spec's example vector gives AFI 2, SAFI 1 for IPv6 unicast
    and type code 14 for MP_REACH_NLRI; the docstring of [construct] gives
    (1, 128) for IPv4 VPN-MPLS; the remaining values are the registered code
    points these names stand for (flow specification SAFI 133, UPDATE
    sub-error 5 "Attribute Length Error", the optional-attribute flag bit). *)
Definition AFNUM_INET : Z := 1.
Definition AFNUM_INET6 : Z := 2.
Definition SAFNUM_UNICAST : Z := 1.
Definition SAFNUM_LAB_VPNUNICAST : Z := 128.
Definition SAFNUM_FSPEC_RULE : Z := 133.
Definition ERR_MSG_UPDATE_ATTR_LEN : N := 5.
Definition MP_REACH_NLRI : Z := 14.
Definition OPTIONAL : Z := 128.

(** ** Built-ins: slicing, [repr], [struct], [binascii], [int] *)

(** [s[lo:hi]] for non-negative bounds: never raises, silently clamps. *)
Definition slice (s : str) (lo hi : nat) : str := take (hi - lo) (drop lo s).

(** Lower-case hexadecimal digit of a value below 16. *)
Definition hexdigit (n : N) : byte :=
  match n with
  | 0 => "0" | 1 => "1" | 2 => "2" | 3 => "3" | 4 => "4" | 5 => "5"
  | 6 => "6" | 7 => "7" | 8 => "8" | 9 => "9" | 10 => "a" | 11 => "b"
  | 12 => "c" | 13 => "d" | 14 => "e" | _ => "f"
  end%byte.

Definition hex2 (c : byte) : str :=
  [hexdigit (Byte.to_N c / 16); hexdigit (Byte.to_N c mod 16)].

(** [binascii.b2a_hex] *)
Definition b2a_hex (s : str) : str := concat (map hex2 s).

(** [repr] of a Python 2 [str]: single quotes unless the string has a
    single quote and no double quote; the quote and the backslash are
    escaped, tab, newline and carriage return get their letter escapes,
    other bytes outside the printable ASCII range are written [\xNN]. *)
Definition quote_of (s : str) : byte :=
  if bool_decide (x27 ∈ s) && negb (bool_decide (x22 ∈ s)) then x22 else x27.

Definition repr_char (quote c : byte) : str :=
  if bool_decide (c = quote) || bool_decide (c = x5c) then [x5c; c]
  else if bool_decide (c = x09) then [x5c; x74]
  else if bool_decide (c = x0a) then [x5c; x6e]
  else if bool_decide (c = x0d) then [x5c; x72]
  else if (Byte.to_N c <? 32) || (127 <=? Byte.to_N c) then [x5c; x78] ++ hex2 c
  else [c].

Definition py_repr (s : str) : str :=
  let quote := quote_of s in
  [quote] ++ concat (map (repr_char quote) s) ++ [quote].

(** Value of a hexadecimal digit, either case. *)
Definition hexval (c : byte) : option N :=
  let n := Byte.to_N c in
  if (48 <=? n) && (n <=? 57) then Some (n - 48)
  else if (97 <=? n) && (n <=? 102) then Some (n - 87)
  else if (65 <=? n) && (n <=? 70) then Some (n - 55)
  else None.

Fixpoint hex_digits (acc : N) (s : str) : option N :=
  match s with
  | [] => Some acc
  | c :: s' =>
      match hexval c with
      | Some d => hex_digits (16 * acc + d) s'
      | None => None
      end
  end.

(** [int(s, 16)] on a string of digits (the only strings [b2a_hex] yields;
    signs, blanks and the [0x] prefix are not modelled): the empty string
    and any non-digit raise [ValueError]. *)
Definition int_16 (s : str) : result N :=
  match s, hex_digits 0 s with
  | _ :: _, Some n => Return n
  | _, _ =>
      Raise (PyExc "ValueError"
               (lit "invalid literal for int() with base 16: " ++ py_repr s))
  end.

(** [struct.unpack('!HBB', s)]: exactly four bytes or [struct.error]. *)
Definition unpack_HBB (s : str) : result (Z * Z * Z) :=
  match s with
  | [a; b; c; d] =>
      Return (Z.of_N (256 * Byte.to_N a + Byte.to_N b),
              Z.of_N (Byte.to_N c), Z.of_N (Byte.to_N d))
  | _ => Raise (PyExc "struct.error"
                  (lit "unpack requires a string argument of length 4"))
  end.

(** [struct.pack('!B', v)] *)
Definition pack_B (v : pyval) : result str :=
  match v with
  | PInt n =>
      match (if (0 <=? n)%Z then Byte.of_N (Z.to_N n) else None) with
      | Some b => Return [b]
      | None => Raise (PyExc "struct.error"
                         (lit "ubyte format requires 0 <= number <= 255"))
      end
  | _ => Raise (PyExc "struct.error"
                  (lit "cannot convert argument to integer"))
  end.

(** [struct.pack('!H', v)] *)
Definition pack_H (v : pyval) : result str :=
  match v with
  | PInt n =>
      if (0 <=? n)%Z && (n <=? 65535)%Z then
        match Byte.of_N (Z.to_N n / 256), Byte.of_N (Z.to_N n mod 256) with
        | Some hi, Some lo => Return [hi; lo]
        | _, _ => Raise (PyExc "struct.error"
                           (lit "'H' format requires 0 <= number <= 65535"))
        end
      else Raise (PyExc "struct.error"
                    (lit "'H' format requires 0 <= number <= 65535"))
  | _ => Raise (PyExc "struct.error"
                  (lit "cannot convert argument to integer"))
  end.

(** [v == n] for an integer constant [n]. *)
Definition py_eq_int (v : pyval) (n : Z) : bool :=
  match v with
  | PInt m => (m =? n)%Z
  | _ => false
  end.

(** [d[k]] *)
Definition getitem (d : pydict) (k : string) : result pyval :=
  match d !! k with
  | Some v => Return v
  | None => Raise (PyExc "KeyError" (py_repr (lit k)))
  end.

(** [a, b = v] *)
Definition unpack2 (v : pyval) : result (pyval * pyval) :=
  match v with
  | PTuple [a; b] | PList [a; b] => Return (a, b)
  | PStr [a; b] => Return (PStr [a], PStr [b])
  | PTuple [] | PList [] | PStr [] =>
      Raise (PyExc "ValueError" (lit "need more than 0 values to unpack"))
  | PTuple [_] | PList [_] | PStr [_] =>
      Raise (PyExc "ValueError" (lit "need more than 1 value to unpack"))
  | PTuple _ | PList _ | PStr _ =>
      Raise (PyExc "ValueError" (lit "too many values to unpack"))
  | PNone => Raise (PyExc "TypeError" (lit "'NoneType' object is not iterable"))
  | PInt _ => Raise (PyExc "TypeError" (lit "'int' object is not iterable"))
  end.

(** [dict(k1=v1, ...)] *)
Definition dict (kvs : list (string * pyval)) : pydict := list_to_map kvs.

(** ** Collaborators

    The NLRI sub-codecs, [netaddr] and the [__str__] of the exception
    classes are outside this module; the codec is parametric in them.  Each
    may raise.  [IPAddress_str n] is [str(netaddr.IPAddress(n))], which
    [netaddr] defines for every integer from 0 to 2^128 - 1 (dotted quad up
    to 2^32 - 1, IPv6 text above); [IPAddress_packed v] is
    [netaddr.IPAddress(v).packed]. *)
Class Collaborators : Type := {
  IPv4MPLSVPN_parse : str -> result pyval;
  IPv4FlowSpec_parse : str -> result pyval;
  IPv4FlowSpec_construct : pyval -> result str;
  IPv6Unicast_parse : str -> result pyval;
  IPAddress_str : N -> str;
  IPAddress_packed : pyval -> result str;
  excep_str : exn -> str
}.

(** [except netaddr.core.AddrFormatError] *)
Definition is_AddrFormatError (e : exn) : bool :=
  match e with
  | PyExc cls _ => String.eqb cls "AddrFormatError"
  | _ => false
  end.

Section Codec.
Context {C : Collaborators}.

(** [str(e)], as ['%s' % e] computes it. *)
Definition exn_str (e : exn) : str :=
  match e with
  | PyExc _ msg => msg
  | _ => excep_str e
  end.

(** [str(netaddr.IPAddress(int(binascii.b2a_hex(s), 16)))] *)
Definition decode_nexthop (s : str) : result pyval :=
  n ← int_16 (b2a_hex s);
  mret (PStr (IPAddress_str n)).

(** The [try] block that opens [parse]: the fixed header and the two
    slices that follow it. *)
Definition split_header (value : str) : result (Z * Z * str * str) :=
  '(afi, safi, nexthop_length) ← unpack_HBB (slice value 0 4);
  let nexthop_bin := slice value 4 (4 + Z.to_nat nexthop_length) in
  let nlri_bin := drop (5 + Z.to_nat nexthop_length) value in
  mret (afi, safi, nexthop_bin, nlri_bin).

(** ** [MpReachNLRI.parse] *)
Definition parse (value : str) : result pydict :=
  hdr ← try_except (split_header value)
    (* error when length is wrong *)
    (fun _ => Raise (UpdateMessageError ERR_MSG_UPDATE_ATTR_LEN (py_repr value)));
  let '(afi, safi, nexthop_bin, nlri_bin) := hdr in
  let finish (nlri : pyval) : result pydict :=
    mret (dict [("afi_safi", PTuple [PInt afi; PInt safi]);
                ("nexthop", PStr nexthop_bin);
                ("nlri", nlri)]) in
  (* Address Family IPv4 *)
  if (afi =? AFNUM_INET)%Z then
    if (safi =? SAFNUM_LAB_VPNUNICAST)%Z then
      nlri ← IPv4MPLSVPN_parse nlri_bin;
      finish nlri
    else if (safi =? SAFNUM_FSPEC_RULE)%Z then
      let nlri_bin :=
        if (240 <=? length nlri_bin)%nat then drop 2 nlri_bin
        else drop 1 nlri_bin in
      nlri ← IPv4FlowSpec_parse nlri_bin;
      finish nlri
    else
      finish (PStr (py_repr nlri_bin))
  (* Address Family IPv6 *)
  else if (afi =? AFNUM_INET6)%Z then
    if (safi =? SAFNUM_UNICAST)%Z then
      let nexthop_addrlen := 16%nat in
      nexthop ← decode_nexthop (take nexthop_addrlen nexthop_bin);
      if (length nexthop_bin =? 2 * nexthop_addrlen)%nat then
        (* has link local address *)
        linklocal_nexthop ← decode_nexthop (drop nexthop_addrlen nexthop_bin);
        nlri ← IPv6Unicast_parse nlri_bin;
        mret (dict [("afi_safi", PTuple [PInt afi; PInt safi]);
                    ("nexthop", nexthop);
                    ("linklocal_nexthop", linklocal_nexthop);
                    ("nlri", nlri)])
      else
        nlri ← IPv6Unicast_parse nlri_bin;
        mret (dict [("afi_safi", PTuple [PInt afi; PInt safi]);
                    ("nexthop", nexthop);
                    ("nlri", nlri)])
    else
      (* no branch assigned [nlri]; the final [return] reads it *)
      Raise (PyExc "UnboundLocalError"
               (lit "local variable 'nlri' referenced before assignment"))
  else
    finish (PStr (py_repr nlri_bin)).

(** The inner [try] of [construct]: the packed next hop, or the empty
    string when the address library rejects it with [AddrFormatError]; any
    other exception (a missing key too) passes through. *)
Definition pack_nexthop (value : pydict) : result str :=
  try_except
    (nh ← getitem value "nexthop"; IPAddress_packed nh)
    (fun e => if is_AddrFormatError e then mret (lit "") else Raise e).

(** ** [MpReachNLRI.construct] *)
Definition construct (value : pydict) : result pyval :=
  afi_safi ← getitem value "afi_safi";
  '(afi, safi) ← unpack2 afi_safi;
  if py_eq_int afi AFNUM_INET then
    if py_eq_int safi SAFNUM_LAB_VPNUNICAST then
      (* MPLS VPN: [pass] *)
      mret PNone
    else if py_eq_int safi SAFNUM_FSPEC_RULE then
      (* BGP Flow spec *)
      try_except
        (nexthop ← pack_nexthop value;
         rules ← getitem value "nlri";
         nlri ← IPv4FlowSpec_construct rules;
         match nlri with
         | _ :: _ =>
             a ← pack_H afi;
             s ← pack_B safi;
             l ← pack_B (PInt (Z.of_nat (length nexthop)));
             let attr_value := a ++ s ++ l ++ nexthop ++ [x00] ++ nlri in
             f ← pack_B (PInt OPTIONAL);
             i ← pack_B (PInt MP_REACH_NLRI);
             n ← pack_B (PInt (Z.of_nat (length attr_value)));
             mret (PStr (f ++ i ++ n ++ attr_value))
         | [] => mret PNone
         end)
        (fun e =>
           Raise (ConstructAttributeFailed
                    (lit "failed to construct attributes: " ++ exn_str e)
                    value))
    else
      Raise (ConstructAttributeFailed
               (lit "unsupport this sub address family") value)
  else
    Raise (ConstructAttributeFailed
             (lit "unsupport this sub address family") value).

End Codec.

(** ** Collaborators for test vectors

    Sub-decoders that hand back the bytes they were given, a flow-spec
    encoder that takes an empty list to the empty string and a one-element
    list to its element and rejects anything else, and an address library
    that prints an address as its integer value in decimal and packs only
    four-byte strings. *)
#[global] Instance echo : Collaborators := {|
  IPv4MPLSVPN_parse s := Return (PList [PStr s]);
  IPv4FlowSpec_parse s := Return (PList [PStr s]);
  IPv4FlowSpec_construct v :=
    match v with
    | PList [] => Return []
    | PList [PStr s] => Return s
    | _ => Raise (PyExc "TypeError" (lit "unsupported rule"))
    end;
  IPv6Unicast_parse s := Return (PList [PStr s]);
  IPAddress_str n := lit (NilZero.string_of_uint (N.to_uint n));
  IPAddress_packed v :=
    match v with
    | PStr [a; b; c; d] => Return [a; b; c; d]
    | _ => Raise (PyExc "AddrFormatError" (lit "failed to detect a valid IP address"))
    end;
  excep_str _ := []
|}.

(** The two variable fields of a value whose four header bytes are
    followed by [rest], as [parse] slices them ([value[4:4 + n]] and
    [value[5 + n:]] for the announced next-hop length [n = l]): the slices
    clamp, so a value that is too short has shorter, or empty, fields. *)
Definition nexthop_field (l : byte) (rest : str) : str :=
  take (N.to_nat (Byte.to_N l)) rest.

Definition nlri_field (l : byte) (rest : str) : str :=
  drop (1 + N.to_nat (Byte.to_N l)) rest.

(** Big-endian value of a byte string: what [int(b2a_hex(s), 16)] is to
    compute for a non-empty [s]. *)
Definition be_int (s : str) : N :=
  fold_left (fun acc c => 256 * acc + Byte.to_N c) s 0.

(** Reads the first character of a [repr] rendering back: the inverse of
    [repr_char], by which [repr] is shown to lose nothing. *)
Definition unrepr_char (s : str) : option (byte * str) :=
  match s with
  | [] => None
  | c :: s1 =>
      if bool_decide (c = x5c) then
        match s1 with
        | [] => None
        | d :: s2 =>
            if bool_decide (d = x74) then Some (x09, s2)
            else if bool_decide (d = x6e) then Some (x0a, s2)
            else if bool_decide (d = x72) then Some (x0d, s2)
            else if bool_decide (d = x78) then
              match s2 with
              | h :: l :: s3 =>
                  match hexval h, hexval l with
                  | Some a, Some b =>
                      match Byte.of_N (16 * a + b) with
                      | Some c' => Some (c', s3)
                      | None => None
                      end
                  | _, _ => None
                  end
              | _ => None
              end
            else Some (d, s2)
        end
      else Some (c, s1)
  end.

(** * Properties *)

(** ** Built-ins *)

Lemma hexval_hexdigit_hi c : hexval (hexdigit (Byte.to_N c / 16)) = Some (Byte.to_N c / 16).
Proof. destruct c; reflexivity. Qed.

Lemma hexval_hexdigit_lo c : hexval (hexdigit (Byte.to_N c mod 16)) = Some (Byte.to_N c mod 16).
Proof. destruct c; reflexivity. Qed.

Lemma hex_digits_b2a_hex s : forall acc,
  hex_digits acc (b2a_hex s) =
  Some (fold_left (fun acc c => 256 * acc + Byte.to_N c) s acc).
Proof.
  induction s as [|c s IH]; intros acc; [reflexivity|].
  change (b2a_hex (c :: s)) with (hex2 c ++ b2a_hex s).
  cbn [hex2 app hex_digits fold_left].
  rewrite hexval_hexdigit_hi, hexval_hexdigit_lo, IH.
  do 2 f_equal.
  pose proof (N.div_mod (Byte.to_N c) 16). lia.
Qed.

Lemma int_16_b2a_hex c s : int_16 (b2a_hex (c :: s)) = Return (be_int (c :: s)).
Proof.
  pose proof (hex_digits_b2a_hex (c :: s) 0) as E.
  unfold int_16, be_int.
  destruct (b2a_hex (c :: s)) as [|d ds] eqn:Eh; [discriminate Eh|].
  rewrite E. reflexivity.
Qed.

Lemma int_16_b2a_hex_nil : exists msg, int_16 (b2a_hex []) = Raise (PyExc "ValueError" msg).
Proof. eexists. reflexivity. Qed.

Lemma repr_char_length q c : (1 <= length (repr_char q c))%nat.
Proof.
  unfold repr_char.
  repeat match goal with |- context [if ?b then _ else _] => destruct b end;
    cbn; lia.
Qed.

Lemma concat_repr_length q s : (length s <= length (concat (map (repr_char q) s)))%nat.
Proof.
  induction s as [|c s IH]; cbn; [lia|].
  rewrite length_app. pose proof (repr_char_length q c). lia.
Qed.

(** [repr] always adds its two quotes: the rendering of a byte string is
    never the byte string. *)
Lemma py_repr_length s : (length s + 2 <= length (py_repr s))%nat.
Proof.
  unfold py_repr. cbn. rewrite length_app. cbn.
  pose proof (concat_repr_length (quote_of s) s). lia.
Qed.

Lemma py_repr_neq s : py_repr s <> s.
Proof. intros E. pose proof (py_repr_length s). rewrite E in *. lia. Qed.

(** ** The header *)

Section Header.
Context {C : Collaborators}.

Lemma split_header_short value :
  (length value < 4)%nat ->
  exists msg, split_header value = Raise (PyExc "struct.error" msg).
Proof.
  intros Hlen. eexists.
  destruct value as [|a [|b [|c [|d ?]]]]; cbn in Hlen; try lia; reflexivity.
Qed.

Lemma split_header_cons a b c l rest :
  split_header (a :: b :: c :: l :: rest) =
  Return (Z.of_N (256 * Byte.to_N a + Byte.to_N b), Z.of_N (Byte.to_N c),
          nexthop_field l rest, nlri_field l rest).
Proof.
  unfold split_header, nexthop_field, nlri_field.
  assert (slice (a :: b :: c :: l :: rest) 0 4 = [a; b; c; l]) as -> by reflexivity.
  cbn [unpack_HBB mbind result_bind mret result_ret].
  unfold slice.
  replace (Z.to_nat (Z.of_N (Byte.to_N l))) with (N.to_nat (Byte.to_N l)) by lia.
  replace (4 + N.to_nat (Byte.to_N l) - 4)%nat with (N.to_nat (Byte.to_N l)) by lia.
  reflexivity.
Qed.

(** On a value laid out as the class docstring draws it (header, next hop
    of the announced length, reserved byte, NLRI) the two fields are the
    next hop and the NLRI. *)
Lemma fields_wire l nh r nlri :
  Byte.to_N l = N.of_nat (length nh) ->
  nexthop_field l (nh ++ r :: nlri) = nh /\
  nlri_field l (nh ++ r :: nlri) = nlri.
Proof.
  intros Hl. unfold nexthop_field, nlri_field. rewrite Hl, Nat2N.id. split.
  - apply take_app_length.
  - replace (1 + length nh)%nat with (length (nh ++ [r]))
      by (rewrite length_app; cbn; lia).
    replace (nh ++ r :: nlri) with ((nh ++ [r]) ++ nlri)
      by (rewrite <- app_assoc; reflexivity).
    apply drop_app_length.
Qed.

(** Fewer than four bytes: the attribute-length error, with [repr(value)]
    as its data. *)
Lemma parse_short value :
  (length value < 4)%nat ->
  parse value = Raise (UpdateMessageError ERR_MSG_UPDATE_ATTR_LEN (py_repr value)).
Proof.
  intros Hlen. destruct (split_header_short value Hlen) as [msg E].
  unfold parse. rewrite E. reflexivity.
Qed.

(** Four bytes or more: the [try] block cannot fail, whatever the
    next-hop length byte says. *)
Lemma split_header_total value :
  (4 <= length value)%nat -> exists hdr, split_header value = Return hdr.
Proof.
  intros Hlen.
  destruct value as [|a [|b [|c [|l rest]]]]; cbn in Hlen; try lia.
  rewrite split_header_cons. eauto.
Qed.

End Header.

(** Unfold [parse] on a value of four bytes or more, down to the dispatch
    on the address family. *)
Ltac parse_header :=
  unfold parse;
  rewrite split_header_cons;
  cbn [try_except mbind result_bind mret result_ret].

(** ** Parsing *)

(** C1, on the code: a value of six bytes that announces a four-byte next
    hop and carries two bytes of it is not rejected; [parse] returns a
    dictionary built from the clamped slices (a two-byte next hop and the
    rendering of an empty NLRI field). *)
Theorem parse_truncated_next_hop_returns {C : Collaborators} :
  parse [x00; x01; x01; x04; x0a; x00] =
  Return (dict [("afi_safi", PTuple [PInt 1; PInt 1]);
                ("nexthop", PStr [x0a; x00]);
                ("nlri", PStr (lit "''"))]).
Proof. reflexivity. Qed.

(** C5, on the code: for AFI 2 (IPv6) with SAFI 128, no branch binds the
    local [nlri] and the closing [return] fails with the built-in
    [UnboundLocalError], which is not one of the typed errors. *)
Theorem parse_ipv6_other_safi_unbound {C : Collaborators} :
  exists e, parse [x00; x02; x80; x00; x00] = Raise e /\
            e = PyExc "UnboundLocalError"
                  (lit "local variable 'nlri' referenced before assignment") /\
            typed_error e = false.
Proof. eexists. repeat split. Qed.

(** The same for every IPv6 value whose SAFI is not unicast, whatever
    follows the header. *)
Lemma parse_ipv6_not_unicast {C : Collaborators} (c l : byte) (rest : str) :
  c <> x01 ->
  parse (x00 :: x02 :: c :: l :: rest) =
  Raise (PyExc "UnboundLocalError"
           (lit "local variable 'nlri' referenced before assignment")).
Proof.
  intros Hc. parse_header.
  change (Z.of_N (256 * Byte.to_N x00 + Byte.to_N x02) =? AFNUM_INET)%Z with false.
  change (Z.of_N (256 * Byte.to_N x00 + Byte.to_N x02) =? AFNUM_INET6)%Z with true.
  cbv iota.
  destruct (Z.eqb_spec (Z.of_N (Byte.to_N c)) SAFNUM_UNICAST) as [E|E]; [|reflexivity].
  exfalso. apply Hc.
  assert (Byte.of_N (Byte.to_N c) = Byte.of_N 1) as E' by (f_equal; unfold SAFNUM_UNICAST in E; lia).
  rewrite Byte.of_to_N in E'. injection E' as ->. reflexivity.
Qed.

(** An IPv6 unicast value with an empty next-hop field fails in [int],
    with the built-in [ValueError]. *)
Lemma parse_ipv6_unicast_empty_next_hop {C : Collaborators} (l : byte) (rest : str) :
  nexthop_field l rest = [] ->
  exists msg, parse (x00 :: x02 :: x01 :: l :: rest) = Raise (PyExc "ValueError" msg).
Proof.
  intros Hnh. parse_header. rewrite Hnh. eexists. reflexivity.
Qed.

(** C4: for every (IPv4, flow-spec) value the NLRI field loses exactly its
    first two bytes before it goes to the flow-spec sub-decoder when it
    holds 240 bytes or more, and exactly its first byte when it holds
    fewer; the result is what the sub-decoder makes of the rest (its
    exception, or the dictionary with its rules). *)
Theorem flowspec_length_prefix {C : Collaborators} (l : byte) (rest : str) :
  let value := x00 :: x01 :: x85 :: l :: rest in
  let nlri_bin := nlri_field l rest in
  ((240 <= length nlri_bin)%nat ->
   parse value =
   rules ← IPv4FlowSpec_parse (drop 2 nlri_bin);
   mret (dict [("afi_safi", PTuple [PInt AFNUM_INET; PInt SAFNUM_FSPEC_RULE]);
               ("nexthop", PStr (nexthop_field l rest));
               ("nlri", rules)])) /\
  ((length nlri_bin < 240)%nat ->
   parse value =
   rules ← IPv4FlowSpec_parse (drop 1 nlri_bin);
   mret (dict [("afi_safi", PTuple [PInt AFNUM_INET; PInt SAFNUM_FSPEC_RULE]);
               ("nexthop", PStr (nexthop_field l rest));
               ("nlri", rules)])).
Proof.
  intros value nlri_bin; subst value nlri_bin.
  split; intros Hn; parse_header;
    change (Z.of_N (256 * Byte.to_N x00 + Byte.to_N x01) =? AFNUM_INET)%Z with true;
    change (Z.of_N (Byte.to_N x85) =? SAFNUM_LAB_VPNUNICAST)%Z with false;
    change (Z.of_N (Byte.to_N x85) =? SAFNUM_FSPEC_RULE)%Z with true;
    cbv iota.
  - rewrite (proj2 (Nat.leb_le _ _) Hn). reflexivity.
  - rewrite (proj2 (Nat.leb_gt _ _) Hn). reflexivity.
Qed.

(** The boundary of C4 on test vectors (no next hop, a reserved byte, then
    the NLRI field): fields of 239, 240 and 241 bytes reach the sub-decoder
    with 238, 238 and 239 bytes. *)
Lemma flowspec_length_prefix_witness :
  let vector n := x00 :: x01 :: x85 :: x00 :: x00 :: replicate n xff in
  let parsed n :=
    Return (dict [("afi_safi", PTuple [PInt 1; PInt 133]);
                  ("nexthop", PStr []);
                  ("nlri", PList [PStr (replicate n xff)])]) in
  parse (C := echo) (vector 239%nat) = parsed 238%nat /\
  parse (C := echo) (vector 240%nat) = parsed 238%nat /\
  parse (C := echo) (vector 241%nat) = parsed 239%nat.
Proof.
  intros vector parsed.
  pose proof (fun n => flowspec_length_prefix (C := echo) x00 (x00 :: replicate n xff))
    as W.
  split; [|split].
  - apply (proj2 (W 239%nat)). vm_compute. lia.
  - apply (proj1 (W 240%nat)). vm_compute. lia.
  - apply (proj1 (W 241%nat)). vm_compute. lia.
Defined.

(** C6, as stated, fails: for (IPv4, unicast) with the NLRI field
    [18 0a 00 00] (10.0.0.0/24 on the wire) the [nlri] entry of the result
    is the sixteen-character display string ['\x18\n\x00\x00'], quotes
    included, not the four bytes. *)
Lemma opaque_nlri_is_display_string :
  exists d,
    parse (C := echo) [x00; x01; x01; x00; x00; x18; x0a; x00; x00] = Return d /\
    d !! "nlri" = Some (PStr (lit "'\x18\n\x00\x00'")) /\
    d !! "nlri" <> Some (PStr [x18; x0a; x00; x00]).
Proof. eexists. split; [reflexivity|]. split; [reflexivity|discriminate]. Qed.

(** C6, amended: when the family has no sub-decoder (IPv4 with a SAFI other
    than VPN-MPLS and flow-spec, or an AFI other than IPv4 and IPv6) the
    result carries the family, the next-hop field as raw bytes, and as
    [nlri] the [repr] display string of the NLRI field, which is never
    equal to the field itself. *)
Theorem opaque_nlri_is_repr {C : Collaborators} (a b c l : byte) (rest : str) :
  let afi := Z.of_N (256 * Byte.to_N a + Byte.to_N b) in
  let safi := Z.of_N (Byte.to_N c) in
  (afi = AFNUM_INET /\ safi <> SAFNUM_LAB_VPNUNICAST /\ safi <> SAFNUM_FSPEC_RULE) \/
  (afi <> AFNUM_INET /\ afi <> AFNUM_INET6) ->
  parse (a :: b :: c :: l :: rest) =
  Return (dict [("afi_safi", PTuple [PInt afi; PInt safi]);
                ("nexthop", PStr (nexthop_field l rest));
                ("nlri", PStr (py_repr (nlri_field l rest)))]) /\
  py_repr (nlri_field l rest) <> nlri_field l rest.
Proof.
  intros afi safi Hfam. split; [|apply py_repr_neq].
  parse_header. fold afi safi.
  destruct Hfam as [(Ha & Hv & Hf) | (Ha & Ha6)].
  - rewrite (proj2 (Z.eqb_eq _ _) Ha), (proj2 (Z.eqb_neq _ _) Hv),
      (proj2 (Z.eqb_neq _ _) Hf). reflexivity.
  - rewrite (proj2 (Z.eqb_neq _ _) Ha), (proj2 (Z.eqb_neq _ _) Ha6). reflexivity.
Qed.

(** C6 on two vectors: (IPv4, multicast) and AFI 25 (L2VPN), each with a
    four-byte next hop, the reserved byte and a two-byte NLRI field. *)
Lemma opaque_nlri_is_repr_witness :
  parse (C := echo) [x00; x01; x02; x04; x0a; x00; x00; x01; x00; x08; x0a] =
  Return (dict [("afi_safi", PTuple [PInt 1; PInt 2]);
                ("nexthop", PStr [x0a; x00; x00; x01]);
                ("nlri", PStr (lit "'\x08\n'"))]) /\
  parse (C := echo) [x00; x19; x41; x04; x0a; x00; x00; x01; x00; x08; x0a] =
  Return (dict [("afi_safi", PTuple [PInt 25; PInt 65]);
                ("nexthop", PStr [x0a; x00; x00; x01]);
                ("nlri", PStr (lit "'\x08\n'"))]).
Proof.
  split.
  - apply (opaque_nlri_is_repr (C := echo) x00 x01 x02 x04 [x0a; x00; x00; x01; x00; x08; x0a]).
    left. vm_compute. repeat split; discriminate.
  - apply (opaque_nlri_is_repr (C := echo) x00 x19 x41 x04 [x0a; x00; x00; x01; x00; x08; x0a]).
    right. vm_compute. repeat split; discriminate.
Defined.

(** ** The IPv6 unicast next hop *)

Lemma decode_nexthop_cons {C : Collaborators} c s :
  decode_nexthop (c :: s) = Return (PStr (IPAddress_str (be_int (c :: s)))).
Proof. unfold decode_nexthop. rewrite int_16_b2a_hex. reflexivity. Qed.

Lemma decode_nexthop_nonempty {C : Collaborators} s :
  s <> [] -> decode_nexthop s = Return (PStr (IPAddress_str (be_int s))).
Proof. destruct s; [congruence|]. intros _. apply decode_nexthop_cons. Qed.

Lemma decode_nexthop_nil {C : Collaborators} :
  exists msg, decode_nexthop [] = Raise (PyExc "ValueError" msg).
Proof. eexists. reflexivity. Qed.

(** The integer handed to the address library is always one it accepts:
    at most sixteen bytes are decoded at a time. *)
Lemma be_int_bound s : be_int s < 256 ^ N.of_nat (length s).
Proof.
  unfold be_int.
  enough (forall acc n, acc < 256 ^ n ->
            fold_left (fun acc c => 256 * acc + Byte.to_N c) s acc
            < 256 ^ (n + N.of_nat (length s))) as G.
  { apply (G 0 0). reflexivity. }
  induction s as [|c s IH]; intros acc n Hacc.
  - cbn. rewrite N.add_0_r. exact Hacc.
  - cbn [fold_left length].
    replace (n + N.of_nat (S (length s))) with ((n + 1) + N.of_nat (length s)) by lia.
    apply IH. rewrite N.pow_add_r, N.pow_1_r.
    pose proof (Byte.to_N_bounded c). lia.
Qed.

(** C2, as stated, fails: an IPv6 unicast value with a four-byte next-hop
    field [0a 00 00 01] is accepted; the four bytes are decoded as the
    address of integer value 167772161 and no error is raised. *)
Lemma ipv6_four_byte_next_hop_accepted :
  parse (C := echo) [x00; x02; x01; x04; x0a; x00; x00; x01; x00] =
  Return (dict [("afi_safi", PTuple [PInt 2; PInt 1]);
                ("nexthop", PStr (lit "167772161"));
                ("nlri", PList [PStr []])]).
Proof. reflexivity. Qed.

(** C2, amended: the length of an IPv6 unicast next-hop field is not
    validated.  For every non-empty field whose length is not 32 (so for
    every non-zero length other than 16 and 32) [parse] raises no length
    error: it decodes the first sixteen bytes of the field, or all of it
    when it is shorter, as the next hop, reports no link-local address, and
    hands the NLRI field to the IPv6 unicast sub-decoder. *)
Theorem ipv6_next_hop_length_unchecked {C : Collaborators} (l : byte) (rest : str) :
  let nexthop_bin := nexthop_field l rest in
  nexthop_bin <> [] ->
  length nexthop_bin <> 32%nat ->
  parse (x00 :: x02 :: x01 :: l :: rest) =
  prefixes ← IPv6Unicast_parse (nlri_field l rest);
  mret (dict [("afi_safi", PTuple [PInt AFNUM_INET6; PInt SAFNUM_UNICAST]);
              ("nexthop", PStr (IPAddress_str (be_int (take 16 nexthop_bin))));
              ("nlri", prefixes)]).
Proof.
  intros nh Hne H32. parse_header. fold nh.
  change (Z.of_N (256 * Byte.to_N x00 + Byte.to_N x02) =? AFNUM_INET)%Z with false.
  change (Z.of_N (256 * Byte.to_N x00 + Byte.to_N x02) =? AFNUM_INET6)%Z with true.
  change (Z.of_N (Byte.to_N x01) =? SAFNUM_UNICAST)%Z with true.
  cbv iota zeta.
  assert (take 16 nh <> []) as Ht
    by (destruct nh; [congruence | cbv [take firstn]; discriminate]).
  rewrite (decode_nexthop_nonempty _ Ht).
  cbn [mbind result_bind].
  change (2 * 16)%nat with 32%nat.
  rewrite (proj2 (Nat.eqb_neq _ _) H32). reflexivity.
Qed.

(** C2 on a seventeen-byte next hop (sixteen zero bytes and [07]): the
    first sixteen bytes are decoded, the last one is dropped. *)
Lemma ipv6_next_hop_length_unchecked_witness :
  parse (C := echo) (x00 :: x02 :: x01 :: x11 :: replicate 16 x00 ++ [x07; x00; x20; x01]) =
  Return (dict [("afi_safi", PTuple [PInt 2; PInt 1]);
                ("nexthop", PStr (lit "0"));
                ("nlri", PList [PStr [x20; x01]])]).
Proof.
  apply (ipv6_next_hop_length_unchecked (C := echo) x11
           (replicate 16 x00 ++ [x07; x00; x20; x01]));
    [discriminate | vm_compute; lia].
Defined.

(** C3: when [parse] accepts an IPv6 unicast value, the [nexthop] entry is
    bytes [0:16) of the next-hop field decoded as an address; the result
    has a [linklocal_nexthop] entry if and only if the field is exactly 32
    bytes long, and then the entry is bytes [16:32) decoded; with a field
    of exactly 16 bytes there is no such entry. *)
Theorem ipv6_link_local_iff {C : Collaborators} (l : byte) (rest : str) (d : pydict) :
  let nexthop_bin := nexthop_field l rest in
  parse (x00 :: x02 :: x01 :: l :: rest) = Return d ->
  d !! "nexthop" = Some (PStr (IPAddress_str (be_int (slice nexthop_bin 0 16)))) /\
  (is_Some (d !! "linklocal_nexthop") <-> length nexthop_bin = 32%nat) /\
  (length nexthop_bin = 32%nat ->
   d !! "linklocal_nexthop" =
   Some (PStr (IPAddress_str (be_int (slice nexthop_bin 16 32))))) /\
  (length nexthop_bin = 16%nat -> d !! "linklocal_nexthop" = None).
Proof.
  intros nh. parse_header. fold nh.
  change (Z.of_N (256 * Byte.to_N x00 + Byte.to_N x02) =? AFNUM_INET)%Z with false.
  change (Z.of_N (256 * Byte.to_N x00 + Byte.to_N x02) =? AFNUM_INET6)%Z with true.
  change (Z.of_N (Byte.to_N x01) =? SAFNUM_UNICAST)%Z with true.
  cbv iota zeta. change (2 * 16)%nat with 32%nat.
  change (slice nh 0 16) with (take 16 nh).
  clearbody nh.
  destruct nh as [|b nh'] eqn:Enh; [discriminate|]. rewrite <- Enh in *.
  assert (take 16 nh <> []) as Ht by (rewrite Enh; cbv [take firstn]; discriminate).
  rewrite (decode_nexthop_nonempty _ Ht). cbn [mbind result_bind].
  destruct (Nat.eqb_spec (length nh) 32) as [H32 | H32].
  - assert (drop 16 nh <> []) as Hd.
    { intros E. apply (f_equal length) in E. rewrite length_drop, H32 in E. discriminate E. }
    assert (slice nh 16 32 = drop 16 nh) as Hs.
    { unfold slice. apply take_ge. rewrite length_drop. lia. }
    rewrite (decode_nexthop_nonempty _ Hd). cbn [mbind result_bind].
    destruct (IPv6Unicast_parse (nlri_field l rest)) as [prefixes|e]; [|discriminate].
    intros [= <-]. rewrite Hs.
    split; [reflexivity|]. split; [|split].
    + split; [intros _; exact H32 | intros _; eexists; reflexivity].
    + intros _. reflexivity.
    + intros H16. lia.
  - destruct (IPv6Unicast_parse (nlri_field l rest)) as [prefixes|e]; [|discriminate].
    intros [= <-].
    split; [reflexivity|]. split; [|split].
    + split; [intros [v Hv]; discriminate Hv | intros E; contradiction].
    + intros E; contradiction.
    + intros _. reflexivity.
Qed.

(** C3 on the two legal lengths: a 16-byte next hop ([::1]) and a 32-byte
    one ([::1] followed by [fe80::1]); the test collaborators print an
    address as its integer value. *)
Lemma ipv6_link_local_iff_witness :
  let global := replicate 15 x00 ++ [x01] in
  let local := [xfe; x80] ++ replicate 13 x00 ++ [x01] in
  let d16 := dict [("afi_safi", PTuple [PInt 2; PInt 1]);
                   ("nexthop", PStr (lit "1"));
                   ("nlri", PList [PStr []])] in
  let d32 := dict [("afi_safi", PTuple [PInt 2; PInt 1]);
                   ("nexthop", PStr (lit "1"));
                   ("linklocal_nexthop",
                    PStr (lit "338288524927261089654018896841347694593"));
                   ("nlri", PList [PStr []])] in
  (parse (C := echo) (x00 :: x02 :: x01 :: x10 :: global ++ [x00]) = Return d16 /\
   d16 !! "linklocal_nexthop" = None) /\
  (parse (C := echo) (x00 :: x02 :: x01 :: x20 :: (global ++ local) ++ [x00]) = Return d32 /\
   d32 !! "linklocal_nexthop" =
   Some (PStr (lit "338288524927261089654018896841347694593"))).
Proof.
  intros global local d16 d32. split; (split; [reflexivity|]).
  - apply (ipv6_link_local_iff (C := echo) x10 (global ++ [x00]) d16 eq_refl).
    reflexivity.
  - apply (ipv6_link_local_iff (C := echo) x20 ((global ++ local) ++ [x00]) d32 eq_refl).
    reflexivity.
Defined.

(** ** Constructing *)

Lemma pack_B_small (n : nat) :
  (n <= 255)%nat -> exists b, pack_B (PInt (Z.of_nat n)) = Return [b].
Proof.
  intros Hn. unfold pack_B.
  rewrite (proj2 (Z.leb_le 0 (Z.of_nat n))) by lia.
  destruct (Byte.of_N (Z.to_N (Z.of_nat n))) as [b|] eqn:E; [eauto|].
  apply Byte.of_N_None_iff in E. lia.
Qed.

Lemma pack_B_large (n : nat) :
  (255 < n)%nat ->
  pack_B (PInt (Z.of_nat n)) =
  Raise (PyExc "struct.error" (lit "ubyte format requires 0 <= number <= 255")).
Proof.
  intros Hn. unfold pack_B.
  rewrite (proj2 (Z.leb_le 0 (Z.of_nat n))) by lia.
  rewrite (proj2 (Byte.of_N_None_iff _)) by lia. reflexivity.
Qed.

(** Unfold [construct] once the family pair has been read. *)
Ltac construct_family Hfam :=
  unfold construct, getitem; rewrite Hfam;
  cbn [mbind result_bind mret result_ret unpack2 py_eq_int].

(** C7, as stated, fails: for (IPv4, VPN-MPLS) [construct] raises nothing
    and returns [None]. *)
Lemma construct_vpn_mpls_returns_none :
  construct (C := echo)
    (dict [("afi_safi", PTuple [PInt 1; PInt 128]);
           ("nexthop", PStr [x0a; x00; x00; x01]);
           ("nlri", PList [PStr [x18; x0a; x00; x00]])]) = Return PNone.
Proof. reflexivity. Qed.

(** C7, amended: for every value whose family pair is (IPv4, VPN-MPLS),
    [construct] is a no-op: it raises no error and returns [None],
    whatever else the value holds. *)
Theorem construct_vpn_mpls_noop {C : Collaborators} (value : pydict) :
  value !! "afi_safi" = Some (PTuple [PInt AFNUM_INET; PInt SAFNUM_LAB_VPNUNICAST]) ->
  construct value = Return PNone.
Proof. intros Hfam. construct_family Hfam. reflexivity. Qed.

Lemma construct_vpn_mpls_noop_witness :
  construct (C := echo) (dict [("afi_safi", PTuple [PInt 1; PInt 128])]) = Return PNone.
Proof. apply construct_vpn_mpls_noop. reflexivity. Defined.

(** When the inner [try] returns: the key is there and the address library
    packs the next hop, or rejects it with [AddrFormatError], which leaves
    a zero-length next hop. *)
Lemma pack_nexthop_packed {C : Collaborators} (value : pydict) nh p :
  value !! "nexthop" = Some nh -> IPAddress_packed nh = Return p ->
  pack_nexthop value = Return p.
Proof. intros Hk Hp. unfold pack_nexthop, getitem. rewrite Hk. cbn. rewrite Hp. reflexivity. Qed.

Lemma pack_nexthop_malformed {C : Collaborators} (value : pydict) nh msg :
  value !! "nexthop" = Some nh ->
  IPAddress_packed nh = Raise (PyExc "AddrFormatError" msg) ->
  pack_nexthop value = Return [].
Proof. intros Hk Hp. unfold pack_nexthop, getitem. rewrite Hk. cbn. rewrite Hp. reflexivity. Qed.

(** C8, as stated, fails: a flow-spec value whose rule list encodes to the
    empty string, but which has no [nexthop] entry, does not give an empty
    output; the [KeyError] of the lookup is caught by the outer handler and
    [construct] raises [ConstructAttributeFailed]. *)
Lemma construct_flowspec_empty_without_nexthop :
  @IPv4FlowSpec_construct echo (PList []) = Return [] /\
  construct (C := echo)
    (dict [("afi_safi", PTuple [PInt 1; PInt 133]); ("nlri", PList [])]) =
  Raise (ConstructAttributeFailed
           (lit "failed to construct attributes: 'nexthop'")
           (dict [("afi_safi", PTuple [PInt 1; PInt 133]); ("nlri", PList [])])).
Proof. split; reflexivity. Qed.

(** C8, amended: for every (IPv4, flow-spec) value that has a [nexthop]
    entry which the address library packs, or rejects with
    [AddrFormatError], and an [nlri] entry whose rule list the sub-encoder
    encodes to the empty string, [construct] returns [None]: no attribute
    bytes, and no error. *)
Theorem construct_flowspec_empty_nlri {C : Collaborators}
    (value : pydict) (nh rules : pyval) :
  value !! "afi_safi" = Some (PTuple [PInt AFNUM_INET; PInt SAFNUM_FSPEC_RULE]) ->
  value !! "nexthop" = Some nh ->
  (exists p, IPAddress_packed nh = Return p) \/
  (exists e, IPAddress_packed nh = Raise e /\ is_AddrFormatError e = true) ->
  value !! "nlri" = Some rules ->
  IPv4FlowSpec_construct rules = Return [] ->
  construct value = Return PNone.
Proof.
  intros Hfam Hk Hp Hrules Henc.
  assert (exists nexthop, pack_nexthop value = Return nexthop) as [nexthop Hnh].
  { unfold pack_nexthop, getitem. rewrite Hk. cbn [mbind result_bind].
    destruct Hp as [[p ->] | (e & -> & He)]; cbn [try_except].
    - eauto.
    - rewrite He. eexists. reflexivity. }
  construct_family Hfam.
  rewrite Hnh, Hrules. cbn [mbind result_bind]. rewrite Henc. reflexivity.
Qed.

(** C8 on two values with an empty rule list: a next hop the address
    library of the test collaborators packs, and one it rejects. *)
Lemma construct_flowspec_empty_nlri_witness :
  construct (C := echo)
    (dict [("afi_safi", PTuple [PInt 1; PInt 133]);
           ("nexthop", PStr [x0a; x00; x00; x01]);
           ("nlri", PList [])]) = Return PNone /\
  construct (C := echo)
    (dict [("afi_safi", PTuple [PInt 1; PInt 133]);
           ("nexthop", PStr (lit "not an address"));
           ("nlri", PList [])]) = Return PNone.
Proof.
  split.
  - apply (construct_flowspec_empty_nlri (C := echo) _ (PStr [x0a; x00; x00; x01]) (PList []));
      [reflexivity | reflexivity | left; eexists; reflexivity | reflexivity | reflexivity].
  - apply (construct_flowspec_empty_nlri (C := echo) _ (PStr (lit "not an address")) (PList []));
      [reflexivity | reflexivity | right; eexists; split; reflexivity
      | reflexivity | reflexivity].
Defined.

(** Everything the flow-spec branch raises leaves [construct] as
    [ConstructAttributeFailed] with the input value as its data. *)
Lemma construct_flowspec_raises {C : Collaborators} (value : pydict) (e : exn) :
  value !! "afi_safi" = Some (PTuple [PInt AFNUM_INET; PInt SAFNUM_FSPEC_RULE]) ->
  construct value = Raise e ->
  exists reason, e = ConstructAttributeFailed reason value.
Proof.
  intros Hfam. construct_family Hfam.
  change (AFNUM_INET =? AFNUM_INET)%Z with true.
  change (SAFNUM_FSPEC_RULE =? SAFNUM_LAB_VPNUNICAST)%Z with false.
  change (SAFNUM_FSPEC_RULE =? SAFNUM_FSPEC_RULE)%Z with true.
  cbv iota.
  match goal with |- try_except ?m _ = _ -> _ => destruct m as [v|e'] end;
    cbn [try_except]; [discriminate|].
  intros [= <-]. eauto.
Qed.

(** C9: a family pair other than (IPv4, flow-spec) and (IPv4, VPN-MPLS)
    makes [construct] raise [ConstructAttributeFailed] with the reason
    "unsupport this sub address family" and the input value as data; in the
    flow-spec branch an exception [e] of the sub-encoder is raised again as
    [ConstructAttributeFailed] with the reason "failed to construct
    attributes: " followed by [str(e)] and the input value as data, and no
    other kind of exception leaves that branch. *)
Theorem construct_unsupported_or_failed {C : Collaborators}
    (value : pydict) (afi safi : Z) :
  value !! "afi_safi" = Some (PTuple [PInt afi; PInt safi]) ->
  (~ (afi = AFNUM_INET /\ (safi = SAFNUM_FSPEC_RULE \/ safi = SAFNUM_LAB_VPNUNICAST)) ->
   construct value =
   Raise (ConstructAttributeFailed (lit "unsupport this sub address family") value)) /\
  (afi = AFNUM_INET -> safi = SAFNUM_FSPEC_RULE ->
   (forall nexthop rules e,
      pack_nexthop value = Return nexthop ->
      value !! "nlri" = Some rules ->
      IPv4FlowSpec_construct rules = Raise e ->
      construct value =
      Raise (ConstructAttributeFailed
               (lit "failed to construct attributes: " ++ exn_str e) value)) /\
   (forall e, construct value = Raise e ->
              exists reason, e = ConstructAttributeFailed reason value)).
Proof.
  intros Hfam. split.
  - intros Hpair. construct_family Hfam.
    destruct (Z.eqb_spec afi AFNUM_INET) as [Ha|Ha]; [|reflexivity].
    destruct (Z.eqb_spec safi SAFNUM_LAB_VPNUNICAST) as [Hv|Hv]; [tauto|].
    destruct (Z.eqb_spec safi SAFNUM_FSPEC_RULE) as [Hf|Hf]; [tauto|].
    reflexivity.
  - intros -> ->. split.
    + intros nexthop rules e Hnh Hrules Henc. construct_family Hfam.
      change (AFNUM_INET =? AFNUM_INET)%Z with true.
      change (SAFNUM_FSPEC_RULE =? SAFNUM_LAB_VPNUNICAST)%Z with false.
      change (SAFNUM_FSPEC_RULE =? SAFNUM_FSPEC_RULE)%Z with true.
      cbv iota. rewrite Hnh, Hrules. cbn [mbind result_bind]. rewrite Henc.
      reflexivity.
    + intros e. apply construct_flowspec_raises. exact Hfam.
Qed.

(** C9 on two values: (IPv4, multicast), and a flow-spec value whose rule
    list the sub-encoder of the test collaborators rejects. *)
Lemma construct_unsupported_or_failed_witness :
  let multicast := dict [("afi_safi", PTuple [PInt 1; PInt 2]);
                         ("nexthop", PStr [x0a; x00; x00; x01]);
                         ("nlri", PList [])] in
  let bad_rules := dict [("afi_safi", PTuple [PInt 1; PInt 133]);
                         ("nexthop", PStr [x0a; x00; x00; x01]);
                         ("nlri", PInt 7)] in
  construct (C := echo) multicast =
  Raise (ConstructAttributeFailed (lit "unsupport this sub address family") multicast) /\
  construct (C := echo) bad_rules =
  Raise (ConstructAttributeFailed
           (lit "failed to construct attributes: unsupported rule") bad_rules).
Proof.
  intros multicast bad_rules. split.
  - apply (construct_unsupported_or_failed (C := echo) multicast 1 2 eq_refl).
    intros [_ [E|E]]; discriminate E.
  - apply (proj1 (proj2 (construct_unsupported_or_failed (C := echo) bad_rules 1 133 eq_refl)
                    eq_refl eq_refl) [x0a; x00; x00; x01] (PInt 7)
             (PyExc "TypeError" (lit "unsupported rule")));
      reflexivity.
Defined.

(** C10: the length byte of the attribute header is packed with
    [struct.pack('!B', ...)], which refuses a number above 255; for an
    (IPv4, flow-spec) value whose assembled attribute value (AFI, SAFI,
    next-hop length, next hop, reserved byte, encoded NLRI) is longer than
    255 bytes the [struct.error] is caught and [construct] raises
    [ConstructAttributeFailed] with the input value as data: no bytes with
    a wrapped or truncated length are produced. *)
Theorem construct_flowspec_too_long {C : Collaborators}
    (value : pydict) (nexthop : str) (rules : pyval) (nlri : str) :
  value !! "afi_safi" = Some (PTuple [PInt AFNUM_INET; PInt SAFNUM_FSPEC_RULE]) ->
  pack_nexthop value = Return nexthop ->
  value !! "nlri" = Some rules ->
  IPv4FlowSpec_construct rules = Return nlri ->
  nlri <> [] ->
  (255 < 2 + 1 + 1 + length nexthop + 1 + length nlri)%nat ->
  construct value =
  Raise (ConstructAttributeFailed
           (lit "failed to construct attributes: ubyte format requires 0 <= number <= 255")
           value).
Proof.
  intros Hfam Hnh Hrules Henc Hne Hlen. construct_family Hfam.
  change (AFNUM_INET =? AFNUM_INET)%Z with true.
  change (SAFNUM_FSPEC_RULE =? SAFNUM_LAB_VPNUNICAST)%Z with false.
  change (SAFNUM_FSPEC_RULE =? SAFNUM_FSPEC_RULE)%Z with true.
  cbv iota. rewrite Hnh, Hrules. cbn [mbind result_bind]. rewrite Henc.
  destruct nlri as [|c nlri']; [congruence|].
  change (pack_H (PInt AFNUM_INET)) with (Return (A := str) [x00; x01]).
  change (pack_B (PInt SAFNUM_FSPEC_RULE)) with (Return (A := str) [x85]).
  change (pack_B (PInt OPTIONAL)) with (Return (A := str) [x80]).
  change (pack_B (PInt MP_REACH_NLRI)) with (Return (A := str) [x0e]).
  cbn [mbind result_bind].
  destruct (Nat.le_gt_cases (length nexthop) 255) as [Hs|Hl].
  - destruct (pack_B_small _ Hs) as [b ->]. cbn [mbind result_bind].
    rewrite pack_B_large; [reflexivity|].
    cbn [length app]. rewrite length_app. cbn [length] in *. lia.
  - rewrite (pack_B_large _ Hl). reflexivity.
Qed.

(** C10 on a value whose rule list encodes to 251 bytes: with a
    zero-length next hop the attribute value would be 256 bytes long. *)
Lemma construct_flowspec_too_long_witness :
  let value := dict [("afi_safi", PTuple [PInt 1; PInt 133]);
                     ("nexthop", PStr []);
                     ("nlri", PList [PStr (replicate 251 x01)])] in
  construct (C := echo) value =
  Raise (ConstructAttributeFailed
           (lit "failed to construct attributes: ubyte format requires 0 <= number <= 255")
           value).
Proof.
  intros value.
  apply (construct_flowspec_too_long (C := echo) value []
           (PList [PStr (replicate 251 x01)]) (replicate 251 x01));
    [reflexivity | reflexivity | reflexivity | reflexivity | discriminate
    | vm_compute; lia].
Defined.

(** One byte less and the attribute is produced, with length byte [ff]. *)
Example construct_flowspec_255 :
  exists out,
    construct (C := echo)
      (dict [("afi_safi", PTuple [PInt 1; PInt 133]);
             ("nexthop", PStr []);
             ("nlri", PList [PStr (replicate 250 x01)])]) = Return (PStr out) /\
    take 8 out = [x80; x0e; xff; x00; x01; x85; x00; x00] /\
    length out = 258%nat.
Proof. eexists. split; [reflexivity|]. split; reflexivity. Qed.

(** * Further properties of [parse] *)

Lemma byte_to_N_inj (x y : byte) : Byte.to_N x = Byte.to_N y -> x = y.
Proof.
  intros E. apply (f_equal Byte.of_N) in E.
  rewrite !Byte.of_to_N in E. congruence.
Qed.

(** The two header bytes of the AFI, read back from its value. *)
Lemma afi_bytes (a b : byte) (hi lo : byte) :
  Z.of_N (256 * Byte.to_N a + Byte.to_N b) =
  Z.of_N (256 * Byte.to_N hi + Byte.to_N lo) ->
  a = hi /\ b = lo.
Proof.
  intros E.
  pose proof (Byte.to_N_bounded a). pose proof (Byte.to_N_bounded b).
  pose proof (Byte.to_N_bounded hi). pose proof (Byte.to_N_bounded lo).
  split; apply byte_to_N_inj; lia.
Qed.

Lemma safi_byte (c k : byte) :
  Z.of_N (Byte.to_N c) = Z.of_N (Byte.to_N k) -> c = k.
Proof. intros E. apply byte_to_N_inj. lia. Qed.

(** What [parse] does past the header depends on the value only through
    the family and the two fields. *)
Lemma parse_fields_determine {C : Collaborators} a b c l rest l' rest' :
  nexthop_field l rest = nexthop_field l' rest' ->
  nlri_field l rest = nlri_field l' rest' ->
  parse (a :: b :: c :: l :: rest) = parse (a :: b :: c :: l' :: rest').
Proof.
  intros Hn Hr. unfold parse. rewrite !split_header_cons, Hn, Hr. reflexivity.
Qed.

(** X1. The header split loses nothing: when the value holds the announced
    next hop and the reserved byte, the bytes after the header are the
    next-hop field, of the announced length, one reserved byte, and the
    NLRI field. *)
Theorem split_header_partition {C : Collaborators}
    (a b c l : byte) (rest : str) (afi safi : Z) (nexthop_bin nlri_bin : str) :
  split_header (a :: b :: c :: l :: rest) = Return (afi, safi, nexthop_bin, nlri_bin) ->
  (N.to_nat (Byte.to_N l) < length rest)%nat ->
  length nexthop_bin = N.to_nat (Byte.to_N l) /\
  exists r, rest = nexthop_bin ++ r :: nlri_bin.
Proof.
  rewrite split_header_cons. intros [= _ _ <- <-] Hlen.
  unfold nexthop_field, nlri_field.
  set (n := N.to_nat (Byte.to_N l)) in *.
  split; [rewrite length_take; lia|].
  destruct (drop n rest) as [|r tl] eqn:Ed.
  { apply (f_equal length) in Ed. rewrite length_drop in Ed. cbn in Ed. lia. }
  exists r.
  rewrite <- (take_drop n rest) at 1. rewrite Ed. f_equal. f_equal.
  replace (1 + n)%nat with (n + 1)%nat by lia.
  rewrite <- drop_drop, Ed. reflexivity.
Qed.

Lemma split_header_partition_witness :
  length [x0a; x00; x00; x01] = 4%nat /\
  exists r, [x0a; x00; x00; x01; x00; x18; x0a] = [x0a; x00; x00; x01] ++ r :: [x18; x0a].
Proof.
  apply (split_header_partition (C := echo) x00 x01 x01 x04
           [x0a; x00; x00; x01; x00; x18; x0a] 1 1); [reflexivity | vm_compute; lia].
Defined.

(** X2. The reserved byte is ignored: two values in wire layout that differ
    only in it parse to the same outcome. *)
Theorem parse_reserved_byte_ignored {C : Collaborators}
    (a b c l : byte) (nh : str) (r r' : byte) (nlri : str) :
  Byte.to_N l = N.of_nat (length nh) ->
  parse (a :: b :: c :: l :: nh ++ r :: nlri) =
  parse (a :: b :: c :: l :: nh ++ r' :: nlri).
Proof.
  intros Hl. apply parse_fields_determine.
  - destruct (fields_wire l nh r nlri Hl) as [-> _].
    destruct (fields_wire l nh r' nlri Hl) as [-> _]. reflexivity.
  - destruct (fields_wire l nh r nlri Hl) as [_ ->].
    destruct (fields_wire l nh r' nlri Hl) as [_ ->]. reflexivity.
Qed.

Lemma parse_reserved_byte_ignored_witness :
  parse (C := echo) (x00 :: x01 :: x85 :: x04 :: [x0a; x00; x00; x01] ++ x00 :: [x03; x01; x18]) =
  parse (C := echo) (x00 :: x01 :: x85 :: x04 :: [x0a; x00; x00; x01] ++ xff :: [x03; x01; x18]).
Proof.
  apply (parse_reserved_byte_ignored (C := echo) x00 x01 x85 x04 [x0a; x00; x00; x01]).
  reflexivity.
Defined.

(** X4. Every exception that leaves [parse] is one of four: the length error,
    exactly when the value has fewer than four bytes; the
    [UnboundLocalError], for IPv6 with a SAFI other than unicast; the
    [ValueError] of [int], for IPv6 unicast with an empty next-hop field;
    or an exception that one of the three sub-decoders raised, passed on
    as it is. *)
Theorem parse_raises_only {C : Collaborators} (value : str) (e : exn) :
  parse value = Raise e ->
  ((length value < 4)%nat /\
   e = UpdateMessageError ERR_MSG_UPDATE_ATTR_LEN (py_repr value)) \/
  (exists c l rest, value = x00 :: x02 :: c :: l :: rest /\ c <> x01 /\
     e = PyExc "UnboundLocalError"
           (lit "local variable 'nlri' referenced before assignment")) \/
  (exists l rest msg, value = x00 :: x02 :: x01 :: l :: rest /\
     nexthop_field l rest = [] /\ e = PyExc "ValueError" msg) \/
  (exists s, IPv4MPLSVPN_parse s = Raise e \/ IPv4FlowSpec_parse s = Raise e \/
             IPv6Unicast_parse s = Raise e).
Proof.
  destruct (Nat.lt_ge_cases (length value) 4) as [Hs|Hl].
  { rewrite (parse_short value Hs). intros [= <-]. left. split; [exact Hs|reflexivity]. }
  destruct value as [|a [|b [|c [|l rest]]]]; cbn in Hl; try lia. clear Hl.
  parse_header.
  destruct (Z.eqb_spec (Z.of_N (256 * Byte.to_N a + Byte.to_N b)) AFNUM_INET) as [Ha|Ha].
  - destruct (Z.eqb_spec (Z.of_N (Byte.to_N c)) SAFNUM_LAB_VPNUNICAST) as [Hv|Hv].
    + destruct (IPv4MPLSVPN_parse (nlri_field l rest)) as [x|e'] eqn:E; [discriminate|].
      intros [= <-]. right; right; right. eauto.
    + destruct (Z.eqb_spec (Z.of_N (Byte.to_N c)) SAFNUM_FSPEC_RULE) as [Hf|Hf];
        [|discriminate].
      match goal with |- context [IPv4FlowSpec_parse ?s] =>
        destruct (IPv4FlowSpec_parse s) as [x|e'] eqn:E end; [discriminate|].
      intros [= <-]. right; right; right. eauto.
  - destruct (Z.eqb_spec (Z.of_N (256 * Byte.to_N a + Byte.to_N b)) AFNUM_INET6) as [Ha6|Ha6];
      [|discriminate].
    destruct (afi_bytes a b x00 x02 Ha6) as [-> ->].
    destruct (Z.eqb_spec (Z.of_N (Byte.to_N c)) SAFNUM_UNICAST) as [Hu|Hu].
    + apply (safi_byte c x01) in Hu. subst c. cbv zeta.
      change (2 * 16)%nat with 32%nat.
      destruct (nexthop_field l rest) as [|h nh'] eqn:Enh.
      { intros [= <-]. right; right; left. eauto 10. }
      rewrite <- Enh in *.
      assert (take 16 (nexthop_field l rest) <> []) as Ht
        by (rewrite Enh; cbv [take firstn]; discriminate).
      rewrite (decode_nexthop_nonempty _ Ht). cbn [mbind result_bind].
      destruct (Nat.eqb_spec (length (nexthop_field l rest)) 32) as [H32|H32].
      * assert (drop 16 (nexthop_field l rest) <> []) as Hd.
        { intros E. apply (f_equal length) in E. rewrite length_drop, H32 in E.
          discriminate E. }
        rewrite (decode_nexthop_nonempty _ Hd). cbn [mbind result_bind].
        destruct (IPv6Unicast_parse (nlri_field l rest)) as [x|e'] eqn:E; [discriminate|].
        intros [= <-]. right; right; right. eauto.
      * destruct (IPv6Unicast_parse (nlri_field l rest)) as [x|e'] eqn:E; [discriminate|].
        intros [= <-]. right; right; right. eauto.
    + intros [= <-]. right; left. exists c, l, rest.
      split; [reflexivity|]. split; [|reflexivity].
      intros ->. apply Hu. reflexivity.
Qed.

Lemma parse_raises_only_witness :
  exists c l rest,
    [x00; x02; x80; x00; x00] = x00 :: x02 :: c :: l :: rest /\ c <> x01.
Proof.
  destruct (parse_raises_only (C := echo) [x00; x02; x80; x00; x00]
              (PyExc "UnboundLocalError"
                 (lit "local variable 'nlri' referenced before assignment"))
              eq_refl)
    as [[Hlen _] | [(c & l & rest & Hv & Hc & _) | [(l & rest & msg & Hv & _) | (s & Hs)]]].
  - exfalso. cbn in Hlen. lia.
  - exists c, l, rest. split; assumption.
  - discriminate Hv.
  - exfalso. destruct Hs as [Hs | [Hs | Hs]]; discriminate Hs.
Defined.

(** X5. Whenever [parse] returns, the value had its four header bytes, the
    dictionary echoes the family of the header and has a [nexthop] and an
    [nlri] entry; the next hop is the raw next-hop field unless the family
    is IPv6 unicast, and only IPv6 unicast with a 32-byte field has a
    [linklocal_nexthop] entry. *)
Theorem parse_result_keys {C : Collaborators} (value : str) (d : pydict) :
  parse value = Return d ->
  exists a b c l rest,
    value = a :: b :: c :: l :: rest /\
    d !! "afi_safi" =
      Some (PTuple [PInt (Z.of_N (256 * Byte.to_N a + Byte.to_N b));
                    PInt (Z.of_N (Byte.to_N c))]) /\
    is_Some (d !! "nexthop") /\
    is_Some (d !! "nlri") /\
    (~ (a = x00 /\ b = x02 /\ c = x01) ->
     d !! "nexthop" = Some (PStr (nexthop_field l rest)) /\
     d !! "linklocal_nexthop" = None) /\
    (is_Some (d !! "linklocal_nexthop") ->
     length (nexthop_field l rest) = 32%nat).
Proof.
  destruct (Nat.lt_ge_cases (length value) 4) as [Hs|Hl].
  { rewrite (parse_short value Hs). discriminate. }
  destruct value as [|a [|b [|c [|l rest]]]]; cbn in Hl; try lia. clear Hl.
  intros Hp. exists a, b, c, l, rest. split; [reflexivity|]. revert Hp.
  parse_header.
  destruct (Z.eqb_spec (Z.of_N (256 * Byte.to_N a + Byte.to_N b)) AFNUM_INET) as [Ha|Ha].
  - assert (is_Some (@None pyval) -> length (nexthop_field l rest) = 32%nat) as Hnone
      by (intros [? ?]; discriminate).
    destruct (Z.eqb_spec (Z.of_N (Byte.to_N c)) SAFNUM_LAB_VPNUNICAST) as [Hv|Hv];
      [|destruct (Z.eqb_spec (Z.of_N (Byte.to_N c)) SAFNUM_FSPEC_RULE) as [Hf|Hf]].
    + destruct (IPv4MPLSVPN_parse _) as [x|e']; [|discriminate]. intros [= <-].
      repeat split; eauto.
    + match goal with |- context [IPv4FlowSpec_parse ?s] =>
        destruct (IPv4FlowSpec_parse s) as [x|e'] end; [|discriminate].
      intros [= <-]. repeat split; eauto.
    + intros [= <-]. repeat split; eauto.
  - destruct (Z.eqb_spec (Z.of_N (256 * Byte.to_N a + Byte.to_N b)) AFNUM_INET6) as [Ha6|Ha6].
    + destruct (afi_bytes a b x00 x02 Ha6) as [-> ->].
      destruct (Z.eqb_spec (Z.of_N (Byte.to_N c)) SAFNUM_UNICAST) as [Hu|Hu];
        [|discriminate].
      apply (safi_byte c x01) in Hu. subst c. cbv zeta.
      change (2 * 16)%nat with 32%nat.
      destruct (decode_nexthop (take 16 (nexthop_field l rest))) as [g|e'];
        [|discriminate].
      cbn [mbind result_bind].
      destruct (Nat.eqb_spec (length (nexthop_field l rest)) 32) as [H32|H32].
      * destruct (decode_nexthop (drop 16 (nexthop_field l rest))) as [ll|e'];
          [|discriminate].
        cbn [mbind result_bind].
        destruct (IPv6Unicast_parse _) as [x|e']; [|discriminate]. intros [= <-].
        split; [reflexivity|]. split; [eexists; reflexivity|].
        split; [eexists; reflexivity|]. split; [|intros _; exact H32].
        intros Hn. exfalso. apply Hn. repeat split.
      * destruct (IPv6Unicast_parse _) as [x|e']; [|discriminate]. intros [= <-].
        split; [reflexivity|]. split; [eexists; reflexivity|].
        split; [eexists; reflexivity|]. split.
        -- intros Hn. exfalso. apply Hn. repeat split.
        -- intros [? Hx]. discriminate Hx.
    + intros [= <-].
      split; [reflexivity|]. split; [eexists; reflexivity|].
      split; [eexists; reflexivity|]. split.
      * intros _. split; reflexivity.
      * intros [? Hx]. discriminate Hx.
Qed.

Lemma parse_result_keys_witness :
  exists a b c l rest,
    [x00; x19; x41; x00; x00; x08; x0a] = a :: b :: c :: l :: rest /\
    dict [("afi_safi", PTuple [PInt 25; PInt 65]);
          ("nexthop", PStr []);
          ("nlri", PStr (lit "'\x08\n'"))] !! "afi_safi" =
      Some (PTuple [PInt (Z.of_N (256 * Byte.to_N a + Byte.to_N b));
                    PInt (Z.of_N (Byte.to_N c))]).
Proof.
  destruct (parse_result_keys (C := echo) [x00; x19; x41; x00; x00; x08; x0a]
              (dict [("afi_safi", PTuple [PInt 25; PInt 65]);
                     ("nexthop", PStr []);
                     ("nlri", PStr (lit "'\x08\n'"))]) eq_refl)
    as (a & b & c & l & rest & Hv & Hf & _).
  exists a, b, c, l, rest. split; assumption.
Defined.

(** X6. An IPv6 unicast value with a 32-byte next-hop field: both halves are
    decoded before the NLRI goes to the IPv6 unicast sub-decoder, whose
    exception, if any, is the outcome; otherwise the dictionary has the
    four entries. *)
Theorem parse_ipv6_unicast_link_local {C : Collaborators} (l : byte) (rest : str) :
  let nexthop_bin := nexthop_field l rest in
  length nexthop_bin = 32%nat ->
  parse (x00 :: x02 :: x01 :: l :: rest) =
  prefixes ← IPv6Unicast_parse (nlri_field l rest);
  mret (dict [("afi_safi", PTuple [PInt AFNUM_INET6; PInt SAFNUM_UNICAST]);
              ("nexthop", PStr (IPAddress_str (be_int (take 16 nexthop_bin))));
              ("linklocal_nexthop",
               PStr (IPAddress_str (be_int (drop 16 nexthop_bin))));
              ("nlri", prefixes)]).
Proof.
  intros nh H32. parse_header. fold nh.
  change (Z.of_N (256 * Byte.to_N x00 + Byte.to_N x02) =? AFNUM_INET)%Z with false.
  change (Z.of_N (256 * Byte.to_N x00 + Byte.to_N x02) =? AFNUM_INET6)%Z with true.
  change (Z.of_N (Byte.to_N x01) =? SAFNUM_UNICAST)%Z with true.
  cbv iota zeta. change (2 * 16)%nat with 32%nat.
  assert (take 16 nh <> []) as Ht.
  { intros E. apply (f_equal length) in E. rewrite length_take, H32 in E. discriminate E. }
  assert (drop 16 nh <> []) as Hd.
  { intros E. apply (f_equal length) in E. rewrite length_drop, H32 in E. discriminate E. }
  rewrite (decode_nexthop_nonempty _ Ht). cbn [mbind result_bind].
  rewrite (proj2 (Nat.eqb_eq _ _) H32).
  rewrite (decode_nexthop_nonempty _ Hd). reflexivity.
Qed.

Lemma parse_ipv6_unicast_link_local_witness :
  parse (C := echo)
    (x00 :: x02 :: x01 :: x20 ::
     (replicate 15 x00 ++ [x01]) ++ (replicate 15 x00 ++ [x02]) ++ [x00; x40]) =
  Return (dict [("afi_safi", PTuple [PInt 2; PInt 1]);
                ("nexthop", PStr (lit "1"));
                ("linklocal_nexthop", PStr (lit "2"));
                ("nlri", PList [PStr [x40]])]).
Proof.
  apply (parse_ipv6_unicast_link_local (C := echo) x20
           ((replicate 15 x00 ++ [x01]) ++ (replicate 15 x00 ++ [x02]) ++ [x00; x40])).
  reflexivity.
Defined.

(** X7. What the address library is asked to print: for a non-empty slice of
    at most sixteen bytes, [int(binascii.b2a_hex(s), 16)] is the
    big-endian value of the slice and lies below 2^128, the range in which
    [netaddr.IPAddress] accepts an integer. *)
Theorem nexthop_integer_in_range (s : str) :
  s <> [] -> (length s <= 16)%nat ->
  int_16 (b2a_hex s) = Return (be_int s) /\ be_int s < 2 ^ 128.
Proof.
  intros Hne Hlen. split.
  - destruct s as [|c s']; [congruence|]. apply int_16_b2a_hex.
  - pose proof (be_int_bound s) as Hb.
    eapply N.lt_le_trans; [exact Hb|].
    change (2 ^ 128) with (256 ^ 16).
    apply N.pow_le_mono_r; lia.
Qed.

Lemma nexthop_integer_in_range_witness :
  int_16 (b2a_hex [xfe; x80; x00; x01]) = Return 4269801473 /\
  be_int [xfe; x80; x00; x01] < 2 ^ 128.
Proof.
  apply (nexthop_integer_in_range [xfe; x80; x00; x01]); [discriminate | cbn; lia].
Defined.

(** ** The display string of the fallback loses nothing *)

Lemma quote_of_cases s : quote_of s = x22 \/ quote_of s = x27.
Proof. unfold quote_of. destruct (_ && _); auto. Qed.

Lemma unrepr_repr_char q c tl :
  q = x22 \/ q = x27 -> unrepr_char (repr_char q c ++ tl) = Some (c, tl).
Proof. intros [-> | ->]; destruct c; reflexivity. Qed.

Lemma repr_body_inj q s t :
  q = x22 \/ q = x27 ->
  concat (map (repr_char q) s) = concat (map (repr_char q) t) -> s = t.
Proof.
  intros Hq. revert t. induction s as [|c s IH]; intros [|c' t] E.
  - reflexivity.
  - apply (f_equal length) in E. cbn in E. rewrite length_app in E.
    pose proof (repr_char_length q c'). lia.
  - apply (f_equal length) in E. cbn in E. rewrite length_app in E.
    pose proof (repr_char_length q c). lia.
  - cbn [map concat] in E. apply (f_equal unrepr_char) in E.
    rewrite !unrepr_repr_char in E by exact Hq.
    injection E as -> E. f_equal. apply IH. exact E.
Qed.

(** [repr] is injective on byte strings. *)
Lemma py_repr_inj s t : py_repr s = py_repr t -> s = t.
Proof.
  unfold py_repr. cbn [app]. intros E. injection E as Eq E.
  rewrite Eq in E. apply app_inj_tail in E as [E _].
  apply (repr_body_inj (quote_of t)); [apply quote_of_cases | exact E].
Qed.

Lemma Return_inj {A} (x y : A) : Return x = Return y -> x = y.
Proof. intros E. injection E as E. exact E. Qed.

Lemma parse_no_subdecoder {C : Collaborators} (a b c l : byte) (rest : str) :
  let afi := Z.of_N (256 * Byte.to_N a + Byte.to_N b) in
  let safi := Z.of_N (Byte.to_N c) in
  (afi = AFNUM_INET /\ safi <> SAFNUM_LAB_VPNUNICAST /\ safi <> SAFNUM_FSPEC_RULE) \/
  (afi <> AFNUM_INET /\ afi <> AFNUM_INET6) ->
  parse (a :: b :: c :: l :: rest) =
  Return (dict [("afi_safi", PTuple [PInt afi; PInt safi]);
                ("nexthop", PStr (nexthop_field l rest));
                ("nlri", PStr (py_repr (nlri_field l rest)))]).
Proof.
  intros afi safi Hfam. parse_header. fold afi safi.
  destruct Hfam as [(Ha & Hv & Hf) | (Ha & Ha6)].
  - rewrite (proj2 (Z.eqb_eq _ _) Ha), (proj2 (Z.eqb_neq _ _) Hv),
      (proj2 (Z.eqb_neq _ _) Hf). reflexivity.
  - rewrite (proj2 (Z.eqb_neq _ _) Ha), (proj2 (Z.eqb_neq _ _) Ha6). reflexivity.
Qed.

(** X8. For a family without sub-decoder the result determines the two fields:
    two values of that family parse to the same dictionary exactly when
    their next-hop fields and their NLRI fields are the same bytes, so the
    NLRI bytes can be recovered from the display string. *)
Theorem opaque_result_determines_fields {C : Collaborators}
    (a b c l l' : byte) (rest rest' : str) :
  let afi := Z.of_N (256 * Byte.to_N a + Byte.to_N b) in
  let safi := Z.of_N (Byte.to_N c) in
  (afi = AFNUM_INET /\ safi <> SAFNUM_LAB_VPNUNICAST /\ safi <> SAFNUM_FSPEC_RULE) \/
  (afi <> AFNUM_INET /\ afi <> AFNUM_INET6) ->
  parse (a :: b :: c :: l :: rest) = parse (a :: b :: c :: l' :: rest') <->
  nexthop_field l rest = nexthop_field l' rest' /\
  nlri_field l rest = nlri_field l' rest'.
Proof.
  intros afi safi Hfam. split.
  - rewrite (parse_no_subdecoder a b c l rest Hfam),
      (parse_no_subdecoder a b c l' rest' Hfam).
    intros E. apply Return_inj in E.
    pose proof (f_equal (fun d : pydict => d !! "nexthop") E) as En.
    pose proof (f_equal (fun d : pydict => d !! "nlri") E) as Er.
    cbv beta in En, Er.
    change (Some (PStr (nexthop_field l rest)) = Some (PStr (nexthop_field l' rest'))) in En.
    change (Some (PStr (py_repr (nlri_field l rest))) =
            Some (PStr (py_repr (nlri_field l' rest')))) in Er.
    split; [congruence | apply py_repr_inj; congruence].
  - intros [En Er]. apply parse_fields_determine; assumption.
Qed.

Lemma opaque_result_determines_fields_witness :
  parse (C := echo) [x00; x01; x01; x00; x00; x18; x0a] <>
  parse (C := echo) [x00; x01; x01; x00; x00; x18; x09].
Proof.
  intros E.
  apply (opaque_result_determines_fields (C := echo) x00 x01 x01 x00 x00
           [x00; x18; x0a] [x00; x18; x09]) in E.
  - destruct E as [_ E]. discriminate E.
  - left. vm_compute. repeat split; discriminate.
Defined.

(** * Further properties of [construct] *)

Lemma pack_B_byte (n : nat) :
  (n <= 255)%nat ->
  exists b, pack_B (PInt (Z.of_nat n)) = Return [b] /\ Byte.to_N b = N.of_nat n.
Proof.
  intros Hn. unfold pack_B.
  rewrite (proj2 (Z.leb_le 0 (Z.of_nat n))) by lia.
  destruct (Byte.of_N (Z.to_N (Z.of_nat n))) as [b|] eqn:E.
  - exists b. split; [reflexivity|]. apply Byte.to_of_N in E. lia.
  - apply Byte.of_N_None_iff in E. lia.
Qed.

Lemma py_eq_int_true v n : py_eq_int v n = true -> v = PInt n.
Proof.
  destruct v; cbn; try discriminate. intros E. apply Z.eqb_eq in E. congruence.
Qed.

(** Unfold [construct] in the flow-spec branch. *)
Ltac construct_flowspec Hfam :=
  construct_family Hfam;
  change (AFNUM_INET =? AFNUM_INET)%Z with true;
  change (SAFNUM_FSPEC_RULE =? SAFNUM_LAB_VPNUNICAST)%Z with false;
  change (SAFNUM_FSPEC_RULE =? SAFNUM_FSPEC_RULE)%Z with true;
  cbv iota.

(** The bytes of a flow-spec attribute. *)
Lemma construct_flowspec_bytes {C : Collaborators}
    (value : pydict) (nexthop : str) (rules : pyval) (nlri : str) :
  value !! "afi_safi" = Some (PTuple [PInt AFNUM_INET; PInt SAFNUM_FSPEC_RULE]) ->
  pack_nexthop value = Return nexthop ->
  value !! "nlri" = Some rules ->
  IPv4FlowSpec_construct rules = Return nlri ->
  nlri <> [] ->
  (5 + length nexthop + length nlri <= 255)%nat ->
  exists len nhlen : byte,
    Byte.to_N len = N.of_nat (5 + length nexthop + length nlri) /\
    Byte.to_N nhlen = N.of_nat (length nexthop) /\
    construct value =
    Return (PStr ([x80; x0e; len; x00; x01; x85; nhlen] ++ nexthop ++ x00 :: nlri)).
Proof.
  intros Hfam Hnh Hrules Henc Hne Hlen. construct_flowspec Hfam.
  rewrite Hnh, Hrules. cbn [mbind result_bind]. rewrite Henc.
  destruct nlri as [|c nlri']; [congruence|].
  change (pack_H (PInt AFNUM_INET)) with (Return (A := str) [x00; x01]).
  change (pack_B (PInt SAFNUM_FSPEC_RULE)) with (Return (A := str) [x85]).
  change (pack_B (PInt OPTIONAL)) with (Return (A := str) [x80]).
  change (pack_B (PInt MP_REACH_NLRI)) with (Return (A := str) [x0e]).
  cbn [mbind result_bind].
  destruct (pack_B_byte (length nexthop)) as (nhlen & -> & Hnhlen); [lia|].
  cbn [mbind result_bind].
  match goal with |- context [pack_B (PInt (Z.of_nat ?n))] =>
    destruct (pack_B_byte n) as (len & -> & Hlenb) end.
  { cbn [length app]. rewrite length_app. cbn [length] in *. lia. }
  exists len, nhlen. split; [|split; [exact Hnhlen | reflexivity]].
  rewrite Hlenb. cbn [length app]. rewrite length_app. cbn [length]. lia.
Qed.

(** X9. The attribute [construct] emits for flow-spec: flag [80], type code
    [0e], a length byte that counts everything after it, AFI 1, SAFI 133,
    the next-hop length, the packed next hop, a zero reserved byte and the
    encoded NLRI, whenever that NLRI is not empty and the attribute value
    fits in 255 bytes. *)
Theorem construct_flowspec_layout {C : Collaborators}
    (value : pydict) (nexthop : str) (rules : pyval) (nlri : str) :
  value !! "afi_safi" = Some (PTuple [PInt AFNUM_INET; PInt SAFNUM_FSPEC_RULE]) ->
  pack_nexthop value = Return nexthop ->
  value !! "nlri" = Some rules ->
  IPv4FlowSpec_construct rules = Return nlri ->
  nlri <> [] ->
  (5 + length nexthop + length nlri <= 255)%nat ->
  exists (len nhlen : byte) (out : str),
    construct value = Return (PStr out) /\
    out = [x80; x0e; len; x00; x01; x85; nhlen] ++ nexthop ++ x00 :: nlri /\
    Byte.to_N nhlen = N.of_nat (length nexthop) /\
    Byte.to_N len = N.of_nat (length out - 3) /\
    (length out <= 258)%nat.
Proof.
  intros Hfam Hnh Hrules Henc Hne Hlen.
  destruct (construct_flowspec_bytes value nexthop rules nlri Hfam Hnh Hrules Henc Hne Hlen)
    as (len & nhlen & Hl & Hn & Hc).
  exists len, nhlen, ([x80; x0e; len; x00; x01; x85; nhlen] ++ nexthop ++ x00 :: nlri).
  split; [exact Hc|]. split; [reflexivity|]. split; [exact Hn|].
  cbn [length app]. rewrite length_app. cbn [length]. split; [rewrite Hl; f_equal|]; lia.
Qed.

Lemma construct_flowspec_layout_witness :
  exists (len nhlen : byte) (out : str),
    construct (C := echo)
      (dict [("afi_safi", PTuple [PInt 1; PInt 133]);
             ("nexthop", PStr [x0a; x00; x00; x01]);
             ("nlri", PList [PStr [x03; x01; x18]])]) = Return (PStr out) /\
    out = [x80; x0e; len; x00; x01; x85; nhlen] ++ [x0a; x00; x00; x01] ++ x00 :: [x03; x01; x18] /\
    Byte.to_N nhlen = N.of_nat (length [x0a; x00; x00; x01]) /\
    Byte.to_N len = N.of_nat (length out - 3) /\
    (length out <= 258)%nat.
Proof.
  apply (construct_flowspec_layout (C := echo) _ [x0a; x00; x00; x01]
           (PList [PStr [x03; x01; x18]]) [x03; x01; x18]);
    [reflexivity | reflexivity | reflexivity | reflexivity | discriminate | cbn; lia].
Defined.

(** X10. [construct] then [parse]: the attribute value of a constructed
    flow-spec attribute (the bytes after flag, type code and length)
    parses back to the same family, with the packed next hop as raw bytes,
    and with the encoded NLRI handed to the flow-spec sub-decoder less its
    first byte, or its first two bytes from 240 bytes on: [construct] adds
    no length prefix of its own, [parse] removes one. *)
Theorem construct_then_parse_flowspec {C : Collaborators}
    (value : pydict) (nexthop : str) (rules : pyval) (nlri : str) :
  value !! "afi_safi" = Some (PTuple [PInt AFNUM_INET; PInt SAFNUM_FSPEC_RULE]) ->
  pack_nexthop value = Return nexthop ->
  value !! "nlri" = Some rules ->
  IPv4FlowSpec_construct rules = Return nlri ->
  nlri <> [] ->
  (5 + length nexthop + length nlri <= 255)%nat ->
  exists out : str,
    construct value = Return (PStr out) /\
    parse (drop 3 out) =
    decoded ← IPv4FlowSpec_parse
                (if (240 <=? length nlri)%nat then drop 2 nlri else drop 1 nlri);
    mret (dict [("afi_safi", PTuple [PInt AFNUM_INET; PInt SAFNUM_FSPEC_RULE]);
                ("nexthop", PStr nexthop);
                ("nlri", decoded)]).
Proof.
  intros Hfam Hnh Hrules Henc Hne Hlen.
  destruct (construct_flowspec_bytes value nexthop rules nlri Hfam Hnh Hrules Henc Hne Hlen)
    as (len & nhlen & Hl & Hn & Hc).
  eexists. split; [exact Hc|].
  change (drop 3 ([x80; x0e; len; x00; x01; x85; nhlen] ++ nexthop ++ x00 :: nlri))
    with (x00 :: x01 :: x85 :: nhlen :: nexthop ++ x00 :: nlri).
  parse_header.
  destruct (fields_wire nhlen nexthop x00 nlri Hn) as [-> ->].
  reflexivity.
Qed.

Lemma construct_then_parse_flowspec_witness :
  exists out : str,
    construct (C := echo)
      (dict [("afi_safi", PTuple [PInt 1; PInt 133]);
             ("nexthop", PStr [x0a; x00; x00; x01]);
             ("nlri", PList [PStr [x03; x01; x18]])]) = Return (PStr out) /\
    parse (C := echo) (drop 3 out) =
    Return (dict [("afi_safi", PTuple [PInt 1; PInt 133]);
                  ("nexthop", PStr [x0a; x00; x00; x01]);
                  ("nlri", PList [PStr [x01; x18]])]).
Proof.
  apply (construct_then_parse_flowspec (C := echo) _ [x0a; x00; x00; x01]
           (PList [PStr [x03; x01; x18]]) [x03; x01; x18]);
    [reflexivity | reflexivity | reflexivity | reflexivity | discriminate | cbn; lia].
Defined.

(** X11. For an (IPv4, flow-spec) value whose next hop the address library
    rejects with [AddrFormatError], and whose rules the sub-encoder encodes
    to a non-empty NLRI of at most 250 bytes, [construct] returns the
    attribute with next-hop length 0 and no next-hop bytes: [80 0e len 00
    01 85 00 00] followed by the NLRI, where [len] is 5 plus the length of
    the NLRI. *)
Theorem construct_flowspec_malformed_nexthop {C : Collaborators}
    (value : pydict) (nh : pyval) (msg : str) (rules : pyval) (nlri : str) :
  value !! "afi_safi" = Some (PTuple [PInt AFNUM_INET; PInt SAFNUM_FSPEC_RULE]) ->
  value !! "nexthop" = Some nh ->
  IPAddress_packed nh = Raise (PyExc "AddrFormatError" msg) ->
  value !! "nlri" = Some rules ->
  IPv4FlowSpec_construct rules = Return nlri ->
  nlri <> [] ->
  (length nlri <= 250)%nat ->
  exists len : byte,
    Byte.to_N len = N.of_nat (5 + length nlri) /\
    construct value =
    Return (PStr ([x80; x0e; len; x00; x01; x85; x00; x00] ++ nlri)).
Proof.
  intros Hfam Hk Hp Hrules Henc Hne Hlen.
  pose proof (pack_nexthop_malformed value nh msg Hk Hp) as Hnh.
  destruct (construct_flowspec_bytes value [] rules nlri Hfam Hnh Hrules Henc Hne)
    as (len & nhlen & Hl & Hn & Hc); [cbn; lia|].
  exists len. split; [exact Hl|]. rewrite Hc.
  assert (nhlen = x00) as -> by (apply byte_to_N_inj; rewrite Hn; reflexivity).
  reflexivity.
Qed.

Lemma construct_flowspec_malformed_nexthop_witness :
  exists len : byte,
    Byte.to_N len = N.of_nat (5 + length [x03; x01; x18]) /\
    construct (C := echo)
      (dict [("afi_safi", PTuple [PInt 1; PInt 133]);
             ("nexthop", PStr (lit "not an address"));
             ("nlri", PList [PStr [x03; x01; x18]])]) =
    Return (PStr ([x80; x0e; len; x00; x01; x85; x00; x00] ++ [x03; x01; x18])).
Proof.
  apply (construct_flowspec_malformed_nexthop (C := echo) _
           (PStr (lit "not an address"))
           (lit "failed to detect a valid IP address")
           (PList [PStr [x03; x01; x18]]) [x03; x01; x18]);
    [reflexivity | reflexivity | reflexivity | reflexivity | reflexivity
    | discriminate | cbn; lia].
Defined.

(** X12. Every exception that leaves [construct] is either
    [ConstructAttributeFailed] carrying the input value, or comes from
    reading the family pair, which happens outside the [try]: the
    [KeyError] of a value without [afi_safi], or what unpacking a value
    that is not a pair raises.  These escape as they are. *)
Theorem construct_raises_only {C : Collaborators} (value : pydict) (e : exn) :
  construct value = Raise e ->
  (exists reason, e = ConstructAttributeFailed reason value) \/
  (value !! "afi_safi" = None /\ e = PyExc "KeyError" (lit "'afi_safi'")) \/
  (exists v, value !! "afi_safi" = Some v /\ unpack2 v = Raise e).
Proof.
  unfold construct, getitem.
  destruct (value !! "afi_safi") as [v|] eqn:Hk.
  - cbn [mbind result_bind].
    destruct (unpack2 v) as [[afi safi]|e'] eqn:Hu.
    + cbn [mbind result_bind].
      destruct (py_eq_int afi AFNUM_INET); [|intros [= <-]; left; eauto].
      destruct (py_eq_int safi SAFNUM_LAB_VPNUNICAST); [discriminate|].
      destruct (py_eq_int safi SAFNUM_FSPEC_RULE); [|intros [= <-]; left; eauto].
      match goal with |- try_except ?m _ = _ -> _ => destruct m as [x|e'] end;
        cbn [try_except]; [discriminate|].
      intros [= <-]. left. eauto.
    + cbn [mbind result_bind]. intros [= <-]. right; right. eauto.
  - cbn [mbind result_bind]. intros [= <-]. right; left. split; reflexivity.
Qed.

Lemma construct_raises_only_witness :
  dict [("nexthop", PStr []); ("nlri", PList [])] !! "afi_safi" = None.
Proof.
  destruct (construct_raises_only (C := echo)
              (dict [("nexthop", PStr []); ("nlri", PList [])])
              (PyExc "KeyError" (lit "'afi_safi'")) eq_refl)
    as [[reason Hr] | [[Hk _] | (v & Hk & _)]].
  - discriminate Hr.
  - exact Hk.
  - discriminate Hk.
Defined.

(** X13. In the flow-spec branch a failure of the next-hop step other than
    [AddrFormatError] (a missing [nexthop] key is a [KeyError]) and a
    missing [nlri] key both abort the attribute with
    [ConstructAttributeFailed]; in the first case the sub-encoder is not
    consulted. *)
Theorem construct_flowspec_key_errors {C : Collaborators} (value : pydict) :
  value !! "afi_safi" = Some (PTuple [PInt AFNUM_INET; PInt SAFNUM_FSPEC_RULE]) ->
  (forall e, pack_nexthop value = Raise e ->
     construct value =
     Raise (ConstructAttributeFailed
              (lit "failed to construct attributes: " ++ exn_str e) value)) /\
  (value !! "nexthop" = None ->
     construct value =
     Raise (ConstructAttributeFailed
              (lit "failed to construct attributes: 'nexthop'") value)) /\
  (forall nexthop, pack_nexthop value = Return nexthop ->
     value !! "nlri" = None ->
     construct value =
     Raise (ConstructAttributeFailed
              (lit "failed to construct attributes: 'nlri'") value)).
Proof.
  intros Hfam. split; [|split].
  - intros e He. construct_flowspec Hfam. rewrite He. reflexivity.
  - intros Hk. construct_flowspec Hfam.
    unfold pack_nexthop, getitem. rewrite Hk. reflexivity.
  - intros nexthop Hnh Hk. construct_flowspec Hfam.
    rewrite Hnh, Hk. reflexivity.
Qed.

Lemma construct_flowspec_key_errors_witness :
  let no_nexthop := dict [("afi_safi", PTuple [PInt 1; PInt 133]);
                          ("nlri", PList [PStr [x03; x01; x18]])] in
  let no_nlri := dict [("afi_safi", PTuple [PInt 1; PInt 133]);
                       ("nexthop", PStr [x0a; x00; x00; x01])] in
  construct (C := echo) no_nexthop =
  Raise (ConstructAttributeFailed
           (lit "failed to construct attributes: 'nexthop'") no_nexthop) /\
  construct (C := echo) no_nlri =
  Raise (ConstructAttributeFailed
           (lit "failed to construct attributes: 'nlri'") no_nlri).
Proof.
  intros no_nexthop no_nlri. split.
  - apply (proj1 (proj2 (construct_flowspec_key_errors (C := echo) no_nexthop eq_refl))).
    reflexivity.
  - apply (proj2 (proj2 (construct_flowspec_key_errors (C := echo) no_nlri eq_refl))
             [x0a; x00; x00; x01]); reflexivity.
Defined.

(** X14. What [construct] can return.  It returns only for the IPv4 family:
    [None] for VPN-MPLS and for flow-spec rules that encode to nothing, and
    otherwise a flow-spec attribute in the layout above, whose value has at
    most 255 bytes.  No other family, and no longer value, yields bytes. *)
Theorem construct_returns_only {C : Collaborators} (value : pydict) (v : pyval) :
  construct value = Return v ->
  exists afi_safi safi,
    value !! "afi_safi" = Some afi_safi /\
    unpack2 afi_safi = Return (PInt AFNUM_INET, safi) /\
    ((safi = PInt SAFNUM_LAB_VPNUNICAST /\ v = PNone) \/
     (safi = PInt SAFNUM_FSPEC_RULE /\
      exists nexthop rules nlri,
        pack_nexthop value = Return nexthop /\
        value !! "nlri" = Some rules /\
        IPv4FlowSpec_construct rules = Return nlri /\
        ((nlri = [] /\ v = PNone) \/
         (nlri <> [] /\
          (5 + length nexthop + length nlri <= 255)%nat /\
          exists len nhlen : byte,
            v = PStr ([x80; x0e; len; x00; x01; x85; nhlen] ++ nexthop ++ x00 :: nlri))))).
Proof.
  unfold construct, getitem.
  destruct (value !! "afi_safi") as [p|] eqn:Hk; [|discriminate].
  cbn [mbind result_bind].
  destruct (unpack2 p) as [[afi safi]|e'] eqn:Hu; [|discriminate].
  cbn [mbind result_bind].
  destruct (py_eq_int afi AFNUM_INET) eqn:Ha; [|discriminate].
  apply py_eq_int_true in Ha. subst afi.
  destruct (py_eq_int safi SAFNUM_LAB_VPNUNICAST) eqn:Hv.
  { apply py_eq_int_true in Hv. subst safi. intros [= <-].
    exists p, (PInt SAFNUM_LAB_VPNUNICAST). auto. }
  destruct (py_eq_int safi SAFNUM_FSPEC_RULE) eqn:Hf; [|discriminate].
  apply py_eq_int_true in Hf. subst safi.
  intros Hc. exists p, (PInt SAFNUM_FSPEC_RULE).
  split; [reflexivity|]. split; [exact Hu|]. right. split; [reflexivity|].
  revert Hc.
  destruct (pack_nexthop value) as [nexthop|e'] eqn:Hnh; [|discriminate].
  cbn [mbind result_bind].
  destruct (value !! "nlri") as [rules|] eqn:Hr; [|discriminate].
  cbn [mbind result_bind].
  destruct (IPv4FlowSpec_construct rules) as [nlri|e'] eqn:Henc; [|discriminate].
  cbn [mbind result_bind].
  intros Hc. exists nexthop, rules, nlri.
  split; [reflexivity|]. split; [reflexivity|]. split; [exact Henc|].
  destruct nlri as [|c nlri'].
  { left. split; [reflexivity|]. cbn in Hc. congruence. }
  right. split; [discriminate|]. revert Hc.
  change (pack_H (PInt AFNUM_INET)) with (Return (A := str) [x00; x01]).
  change (pack_B (PInt SAFNUM_FSPEC_RULE)) with (Return (A := str) [x85]).
  change (pack_B (PInt OPTIONAL)) with (Return (A := str) [x80]).
  change (pack_B (PInt MP_REACH_NLRI)) with (Return (A := str) [x0e]).
  cbn [mbind result_bind].
  destruct (Nat.le_gt_cases (length nexthop) 255) as [Hs|Hl];
    [|rewrite (pack_B_large _ Hl); discriminate].
  destruct (pack_B_byte _ Hs) as (nhlen & -> & _). cbn [mbind result_bind].
  match goal with |- context [pack_B (PInt (Z.of_nat ?n))] =>
    destruct (Nat.le_gt_cases n 255) as [Hs'|Hl'] end;
    [|rewrite (pack_B_large _ Hl'); discriminate].
  destruct (pack_B_byte _ Hs') as (len & -> & _). cbn [mbind result_bind try_except].
  intros [= <-]. split.
  - cbn [length app] in Hs'. rewrite length_app in Hs'. cbn [length] in *. lia.
  - exists len, nhlen. reflexivity.
Qed.

Lemma construct_returns_only_witness :
  exists afi_safi safi,
    dict [("afi_safi", PTuple [PInt 1; PInt 128])] !! "afi_safi" = Some afi_safi /\
    unpack2 afi_safi = Return (PInt AFNUM_INET, safi).
Proof.
  destruct (construct_returns_only (C := echo)
              (dict [("afi_safi", PTuple [PInt 1; PInt 128])]) PNone eq_refl)
    as (p & safi & Hk & Hu & _).
  exists p, safi. split; assumption.
Defined.
